(** * Face liveness verification: the decision pipeline of [face_auth]

  A shallow embedding of the two React hooks that carry the logic of the
  repository:

  - [useLivenessChecks] (module [Checks]): the landmark geometry, the
    gesture detectors and the action sequencer;
  - [useLivenessDetection] (module [Detection]): the passive forensics
    analyses, the classifier adapter and the fusion of both verdicts.

  JavaScript numbers are IEEE 754 binary64 values and are modelled by
  Rocq's primitive floats, which compute with the same rounding.
  [Date.now()] is an integral number of milliseconds and is modelled in
  [Z].  TensorFlow.js is an external library: its operations are the
  fields of an interface ([Detection.Backend]), each of which may throw. *)

From Stdlib Require Import Floats Uint63 ZArith List String Bool Lia.
Import ListNotations.

Set Warnings "-inexact-float".

(** ** JavaScript values *)

Module JS.

Definition number := float.

(** The outcome of evaluating code that may throw. *)
Inductive completion (A : Type) : Type :=
| Normal (a : A)
| Throw (message : string).
Arguments Normal {A} a.
Arguments Throw {A} message.

Definition bind {A B} (c : completion A) (k : A -> completion B)
  : completion B :=
  match c with
  | Normal a => k a
  | Throw m => Throw m
  end.

(** [try { body } catch (e) { return handler }] *)
Definition tryCatch {A} (body : completion A) (handler : A) : A :=
  match body with
  | Normal a => a
  | Throw _ => handler
  end.

(** [Math.pow(v, 2)] *)
Definition pow2 (v : number) : number := (v * v)%float.

(** [Math.sqrt] *)
Definition sqrt (v : number) : number := PrimFloat.sqrt v.

Definition isNaN (v : number) : bool := is_nan v.

Definition isFinite (v : number) : bool :=
  negb (is_nan v || is_infinity v).

(** [Math.max(a, b)]: [NaN] if either argument is, and [+0] above [-0]. *)
Definition max (a b : number) : number :=
  if is_nan a || is_nan b then nan
  else if (a <? b)%float then b
  else if (b <? a)%float then a
  else if get_sign a then b else a.

(** [Math.min(a, b)]: [NaN] if either argument is, and [-0] below [+0]. *)
Definition min (a b : number) : number :=
  if is_nan a || is_nan b then nan
  else if (a <? b)%float then a
  else if (b <? a)%float then b
  else if get_sign a then a else b.

(** The number denoted by an array length. *)
Definition ofNat (n : nat) : number := of_uint63 (Uint63.of_Z (Z.of_nat n)).

(** [arr[i]] read as a number: a missing element is [undefined], which
    every numeric operator and [isNaN] convert to [NaN]. *)
Definition item (arr : list number) (i : nat) : number := nth i arr nan.

End JS.

Declare Scope js_scope.
Delimit Scope js_scope with js.
Notation "x <- c ;; k" := (JS.bind c (fun x => k))
(at level 61, c at next level, right associativity) : js_scope.
Notation "'ret' a" := (JS.Normal a) (at level 60) : js_scope.

(** ** [useLivenessChecks]: geometry, gesture detectors, action sequencer *)

Module Checks.

Import JS.
Local Open Scope float_scope.
Local Open Scope js_scope.

Record landmark := { x : number; y : number }.

(** The landmark array of one frame. *)
Definition landmarks := list landmark.

(** [landmarks[idx]] followed by a property read: a missing element is
    [undefined] and reading [.x] from it throws. *)
Definition point (lm : landmarks) (idx : nat) : completion landmark :=
  match nth_error lm idx with
  | Some p => Normal p
  | None => Throw "TypeError: Cannot read properties of undefined"
  end.

(** MediaPipe face landmarks indices *)
Definition LEFT_EYE_TOP := 159%nat.
Definition LEFT_EYE_BOTTOM := 145%nat.
Definition LEFT_EYE_LEFT := 33%nat.
Definition LEFT_EYE_RIGHT := 133%nat.

Definition RIGHT_EYE_TOP := 386%nat.
Definition RIGHT_EYE_BOTTOM := 374%nat.
Definition RIGHT_EYE_LEFT := 362%nat.
Definition RIGHT_EYE_RIGHT := 263%nat.

Definition NOSE_TIP := 1%nat.
Definition LEFT_EAR := 234%nat.
Definition RIGHT_EAR := 454%nat.

Definition MOUTH_LEFT := 61%nat.
Definition MOUTH_RIGHT := 291%nat.
Definition MOUTH_TOP := 13%nat.
Definition MOUTH_BOTTOM := 14%nat.

(** [Math.sqrt(Math.pow(p.x - q.x, 2) + Math.pow(p.y - q.y, 2))] *)
Definition distance (p q : landmark) : number :=
  JS.sqrt (pow2 (x p - x q) + pow2 (y p - y q)).

(** The four indices handed to [calculateEyeAspectRatio], in the order
    top, bottom, left, right. *)
Definition eyePoints := (nat * nat * nat * nat)%type.

Definition calculateEyeAspectRatio (lm : landmarks) (eye : eyePoints)
  : completion number :=
  let '(iTop, iBottom, iLeft, iRight) := eye in
  top <- point lm iTop ;;
  bottom <- point lm iBottom ;;
  let vertical1 := distance top bottom in
  p0 <- point lm iTop ;;
  p1 <- point lm iBottom ;;
  let vertical2 := distance p0 p1 in
  left <- point lm iLeft ;;
  right <- point lm iRight ;;
  let horizontal := distance left right in
  let ear := (vertical1 + vertical2) / (2 * horizontal) in
  ret ear.

(** [blinkHistoryRef.current.reduce((a, b) => a + b, 0) / length] *)
Definition historyMean (history : list number) : number :=
  fold_left (fun a b => a + b) history 0 / ofNat (List.length history).

(** [push] followed by the bounded [shift]. *)
Definition pushBlink (history : list number) (avgEAR : number)
  : list number :=
  let pushed := history ++ [avgEAR] in
  if (10 <? List.length pushed)%nat then tl pushed else pushed.

Definition blinkThreshold : number := 0.25.

(** [detectBlink] reads and updates [blinkHistoryRef.current]; it returns
    the verdict together with the new history. *)
Definition detectBlink (lm : option landmarks) (history : list number)
  : completion (bool * list number) :=
  match lm with
  | None => ret (false, history)
  | Some lm =>
      leftEAR <- calculateEyeAspectRatio lm
        (LEFT_EYE_TOP, LEFT_EYE_BOTTOM, LEFT_EYE_LEFT, LEFT_EYE_RIGHT) ;;
      rightEAR <- calculateEyeAspectRatio lm
        (RIGHT_EYE_TOP, RIGHT_EYE_BOTTOM, RIGHT_EYE_LEFT, RIGHT_EYE_RIGHT) ;;
      let avgEAR := (leftEAR + rightEAR) / 2 in
      let history' := pushBlink history avgEAR in
      let avgHistoryEAR := historyMean history' in
      ret (avgHistoryEAR <? blinkThreshold, history')
  end.

Definition detectHeadTurn (lm : option landmarks) : completion bool :=
  match lm with
  | None => ret false
  | Some lm =>
      nose <- point lm NOSE_TIP ;;
      leftEar <- point lm LEFT_EAR ;;
      rightEar <- point lm RIGHT_EAR ;;
      let leftDistance := distance nose leftEar in
      let rightDistance := distance nose rightEar in
      let ratio := leftDistance / rightDistance in
      let turnThreshold := 1.3 in
      ret ((turnThreshold <? ratio) || (ratio <? 1 / turnThreshold))
  end.

Definition detectSmile (lm : option landmarks) : completion bool :=
  match lm with
  | None => ret false
  | Some lm =>
      mouthLeft <- point lm MOUTH_LEFT ;;
      mouthRight <- point lm MOUTH_RIGHT ;;
      mouthTop <- point lm MOUTH_TOP ;;
      mouthBottom <- point lm MOUTH_BOTTOM ;;
      let mouthWidth := distance mouthLeft mouthRight in
      let mouthHeight := distance mouthTop mouthBottom in
      let smileRatio := mouthWidth / mouthHeight in
      ret (2.5 <? smileRatio)
  end.

(** The values [currentAction] is ever set to. *)
Inductive action := face_detection | blink | head_turn | smile | complete.

(** The state of the hook: the six [useState] cells and the two refs. *)
Record state := {
  blinkDetected : bool;
  headTurnDetected : bool;
  smileDetected : bool;
  currentAction : action;
  actionProgress : Z;
  actionStartTime : option Z;
  blinkHistory : list number;
  headPositionHistory : list number
}.

(** The state the hook is created with. *)
Definition initial : state :=
  {| blinkDetected := false; headTurnDetected := false;
     smileDetected := false; currentAction := face_detection;
     actionProgress := 0; actionStartTime := None;
     blinkHistory := []; headPositionHistory := [] |}.

(** [!actionStartTime]: [null] and [0] are both falsy. *)
Definition unset (t : option Z) : bool :=
  match t with
  | None => true
  | Some t => (t =? 0)%Z
  end.

Definition startAt (s : state) (t : option Z) : state :=
  {| blinkDetected := blinkDetected s;
     headTurnDetected := headTurnDetected s;
     smileDetected := smileDetected s;
     currentAction := currentAction s;
     actionProgress := actionProgress s;
     actionStartTime := t;
     blinkHistory := blinkHistory s;
     headPositionHistory := headPositionHistory s |}.

Definition withBlinkHistory (s : state) (h : list number) : state :=
  {| blinkDetected := blinkDetected s;
     headTurnDetected := headTurnDetected s;
     smileDetected := smileDetected s;
     currentAction := currentAction s;
     actionProgress := actionProgress s;
     actionStartTime := actionStartTime s;
     blinkHistory := h;
     headPositionHistory := headPositionHistory s |}.

(** One invocation of [checkLivenessAction(landmarks)] at
    [Date.now() = currentTime].  A [Throw] comes from a detector reading
    a landmark the array does not have; it happens before any setter or
    [push], so the state is then the one before the call. *)
Definition checkLivenessAction (currentTime : Z) (lm : option landmarks)
    (s : state) : completion state :=
  match lm with
  | None => ret s
  | Some _ =>
      if unset (actionStartTime s) then ret (startAt s (Some currentTime))
      else
        let started := match actionStartTime s with
                       | Some t => t
                       | None => 0%Z
                       end in
        if (currentTime - started <? 500)%Z then ret s
        else
          match currentAction s with
          | face_detection =>
              ret {| blinkDetected := blinkDetected s;
                     headTurnDetected := headTurnDetected s;
                     smileDetected := smileDetected s;
                     currentAction := blink;
                     actionProgress := 25;
                     actionStartTime := Some currentTime;
                     blinkHistory := blinkHistory s;
                     headPositionHistory := headPositionHistory s |}
          | blink =>
              r <- detectBlink lm (blinkHistory s) ;;
              let '(detected, history) := r in
              if detected then
                ret {| blinkDetected := true;
                       headTurnDetected := headTurnDetected s;
                       smileDetected := smileDetected s;
                       currentAction := head_turn;
                       actionProgress := 50;
                       actionStartTime := Some currentTime;
                       blinkHistory := history;
                       headPositionHistory := headPositionHistory s |}
              else ret (withBlinkHistory s history)
          | head_turn =>
              detected <- detectHeadTurn lm ;;
              if detected then
                ret {| blinkDetected := blinkDetected s;
                       headTurnDetected := true;
                       smileDetected := smileDetected s;
                       currentAction := smile;
                       actionProgress := 75;
                       actionStartTime := Some currentTime;
                       blinkHistory := blinkHistory s;
                       headPositionHistory := headPositionHistory s |}
              else ret s
          | smile =>
              detected <- detectSmile lm ;;
              if detected then
                ret {| blinkDetected := blinkDetected s;
                       headTurnDetected := headTurnDetected s;
                       smileDetected := true;
                       currentAction := complete;
                       actionProgress := 100;
                       actionStartTime := None;
                       blinkHistory := blinkHistory s;
                       headPositionHistory := headPositionHistory s |}
              else ret s
          | complete => ret s
          end
  end.

Definition resetChecks (s : state) : state := initial.

(** What a session receives: frames with or without landmarks, each at
    its clock reading, and explicit resets. *)
Inductive event :=
| Frame (currentTime : Z) (lm : option landmarks)
| Reset.

(** The state after one event; a call that throws leaves it as it was. *)
Definition step (s : state) (e : event) : state :=
  match e with
  | Frame currentTime lm => tryCatch (checkLivenessAction currentTime lm s) s
  | Reset => resetChecks s
  end.

(** The state a session is in after a sequence of events. *)
Definition run (s : state) (events : list event) : state :=
  fold_left step events s.

(** The position of a stage in the fixed order. *)
Definition rank (a : action) : Z :=
  match a with
  | face_detection => 0
  | blink => 1
  | head_turn => 2
  | smile => 3
  | complete => 4
  end.

End Checks.

(** ** [useLivenessDetection]: passive forensics, classifier, fusion *)

Module Detection.

Import JS.
Local Open Scope float_scope.
Local Open Scope js_scope.

(** The part of TensorFlow.js the hook calls.  Tensors are opaque; every
    operation either yields a value or throws.  [dispose] and [clone] only
    manage memory and do not appear. *)
Class Backend := {
  tensor : Type;
  (** [t.shape] *)
  shape : tensor -> list nat;
  (** [await t.data()] and [t.dataSync()] *)
  data : tensor -> completion (list number);
  (** [tf.mean(t, axis, keepDims)] *)
  tf_mean_axis : tensor -> Z -> bool -> completion tensor;
  (** [t.expandDims(axis)] *)
  expandDims : tensor -> Z -> completion tensor;
  (** [tf.tensor4d(values, shape)] *)
  tf_tensor4d :
    list (list (list (list number))) -> list nat -> completion tensor;
  (** [tf.conv2d(t, filter, strides, pad)] *)
  tf_conv2d : tensor -> tensor -> list nat -> string -> completion tensor;
  (** [tf.moments(t).variance] *)
  tf_moments_variance : tensor -> completion tensor;
  (** [tf.squaredDifference(a, b)] *)
  tf_squaredDifference : tensor -> tensor -> completion tensor;
  (** [tf.mean(t)] *)
  tf_mean : tensor -> completion tensor;
  (** [tf.spectral.fft2d(t)] *)
  tf_spectral_fft2d : tensor -> completion tensor;
  (** [tf.abs(t)] *)
  tf_abs : tensor -> completion tensor;
  (** [tf.slice(t, begin, size)] *)
  tf_slice : tensor -> list Z -> list Z -> completion tensor;
  (** [tf.sum(t)] *)
  tf_sum : tensor -> completion tensor;
  (** [a.div(b)] for a tensor [b] *)
  div : tensor -> tensor -> completion tensor;
  (** [a.div(c)] for a number [c] *)
  divScalar : tensor -> number -> completion tensor;
  (** [tf.image.resizeBilinear(t, size)] *)
  tf_image_resizeBilinear : tensor -> list nat -> completion tensor
}.

(** The object [detectSpoofing] returns. *)
Module Passive.
Record t := { isSpoof : bool; confidence : number; reasons : list string }.
End Passive.

(** The object [detectLiveness] returns on either of its verdict paths;
    [passiveScore] is absent ([undefined]) on the spoof path. *)
Module Verdict.
Record t := {
  isLive : bool;
  confidence : number;
  passiveScore : option number;
  spoofReasons : list string
}.
End Verdict.

(** What a call of [detectLiveness] evaluates to. *)
Inductive returned :=
| Undefined
| Null
| Result (v : Verdict.t).

(** What [getTensorStats] returns. *)
Record tensorStats := { min : number; max : number; hasInvalidValues : bool }.

Section WithBackend.

Context {B : Backend}.

(** Passive liveness detection: texture analysis *)
Definition analyzeTexture (faceTensor : option tensor) : number :=
  match faceTensor with
  | None => 0
  | Some faceTensor =>
      tryCatch
        (gray <- tf_mean_axis faceTensor (-1) true ;;
         expanded <- expandDims gray (-1) ;;
         kernel <- tf_tensor4d [[[[0; 1; 0]; [1; -4; 1]; [0; 1; 0]]]]
                     [3; 3; 1; 1]%nat ;;
         laplacian <- tf_conv2d expanded kernel [1; 1]%nat "same" ;;
         variance <- tf_moments_variance laplacian ;;
         textureScore <- data variance ;;
         ret (if 0.01 <? item textureScore 0 then 1 else 0))
        0
  end.

(** Calculate mean squared difference: the value the loop of
    [analyzeMotion] adds to [totalMotion] for one previous face. *)
Definition meanSquaredDifference (currentFace prevFace : tensor)
  : completion number :=
  diff <- tf_squaredDifference currentFace prevFace ;;
  meanDiff <- tf_mean diff ;;
  values <- data meanDiff ;;
  ret (item values 0).

(** The [for] loop of [analyzeMotion] over the faces it visits, threading
    [totalMotion] and [motionCount]. *)
Fixpoint motionLoop (currentFace : tensor) (faces : list tensor)
    (totalMotion motionCount : number) : completion (number * number) :=
  match faces with
  | [] => ret (totalMotion, motionCount)
  | prevFace :: rest =>
      d <- meanSquaredDifference currentFace prevFace ;;
      motionLoop currentFace rest (totalMotion + d) (motionCount + 1)
  end.

(** Passive liveness detection: motion analysis.  The loop index runs over
    [0 .. Math.min(previousFaces.length, 3) - 1]. *)
Definition analyzeMotion (currentFace : option tensor)
    (previousFaces : list tensor) : number :=
  match currentFace with
  | None => 0
  | Some currentFace =>
      if (List.length previousFaces <? 3)%nat then 0
      else
        tryCatch
          (r <- motionLoop currentFace
                 (firstn (Nat.min (List.length previousFaces) 3) previousFaces)
                 0 0 ;;
           let '(totalMotion, motionCount) := r in
           let avgMotion := totalMotion / motionCount in
           ret (if 0.001 <? avgMotion then 1 else 0))
          0
  end.


(** Frequency domain analysis for detecting digital artifacts *)
Definition analyzeFrequencyDomain (faceTensor : option tensor) : number :=
  match faceTensor with
  | None => 0
  | Some faceTensor =>
      tryCatch
        (fft <- tf_spectral_fft2d faceTensor ;;
         magnitude <- tf_abs fft ;;
         high <- tf_slice magnitude [0; 112; 0]%Z [-1; 112; -1]%Z ;;
         highFreqEnergy <- tf_sum high ;;
         totalEnergy <- tf_sum magnitude ;;
         artifactRatio <- div highFreqEnergy totalEnergy ;;
         ratio <- data artifactRatio ;;
         ret (if item ratio 0 <? 0.3 then 1 else 0))
        0
  end.

(** Enhanced spoof detection combining multiple passive methods *)
Definition detectSpoofing (faceTensor : option tensor)
    (faceHistory : list tensor) : Passive.t :=
  match faceTensor with
  | None =>
      {| Passive.isSpoof := true; Passive.confidence := 0;
         Passive.reasons := ["No face data"%string] |}
  | Some _ =>
      let textureScore := analyzeTexture faceTensor in
      let motionScore := analyzeMotion faceTensor faceHistory in
      let frequencyScore := analyzeFrequencyDomain faceTensor in
      let totalScore := (textureScore + motionScore + frequencyScore) / 3 in
      let isSpoof := totalScore <? 0.5 in
      let reasons :=
        (if textureScore <? 0.5 then ["Low texture detail"%string] else [])
        ++ (if motionScore <? 0.5 then ["Insufficient motion"%string] else [])
        ++ (if frequencyScore <? 0.5
            then ["Digital artifacts detected"%string] else []) in
      {| Passive.isSpoof := isSpoof; Passive.confidence := totalScore;
         Passive.reasons := reasons |}
  end.

(** The [for] loop of [getTensorStats], with its [break]. *)
Fixpoint statsLoop (values : list number) (mn mx : number) : tensorStats :=
  match values with
  | [] => {| min := mn; max := mx; hasInvalidValues := false |}
  | val :: rest =>
      if isNaN val || negb (isFinite val)
      then {| min := mn; max := mx; hasInvalidValues := true |}
      else statsLoop rest (JS.min mn val) (JS.max mx val)
  end.

(** Security utility: Get tensor statistics for validation *)
Definition getTensorStats (t : tensor) : completion tensorStats :=
  values <- data t ;;
  ret (statsLoop values infinity neg_infinity).

Definition preprocessFaceImage (faceTensor : tensor) : completion tensor :=
  resized <- tf_image_resizeBilinear faceTensor [224; 224]%nat ;;
  scaled <- divScalar resized 255 ;;
  expandDims scaled 0.

(** The classifier held by [modelRef.current].  [predict] stands for the
    awaited race of [model.predict] against the five second timer: it
    throws when the model does or when the timer wins. *)
Record model := { predict : tensor -> completion tensor }.

(** The state of the hook: four [useState] cells and two refs. *)
Record state := {
  isLive : option bool;
  confidence : number;
  isModelLoaded : bool;
  error : option string;
  modelRef : option model;
  faceHistoryRef : list tensor
}.

Definition initial : state :=
  {| isLive := None; confidence := 0; isModelLoaded := false;
     error := None; modelRef := None; faceHistoryRef := [] |}.

Definition setError (s : state) (message : string) : state :=
  {| isLive := isLive s; confidence := confidence s;
     isModelLoaded := isModelLoaded s; error := Some message;
     modelRef := modelRef s; faceHistoryRef := faceHistoryRef s |}.

(** [setIsLive(live); setConfidence(c)] *)
Definition setVerdict (s : state) (live : bool) (c : number) : state :=
  {| isLive := Some live; confidence := c;
     isModelLoaded := isModelLoaded s; error := error s;
     modelRef := modelRef s; faceHistoryRef := faceHistoryRef s |}.

Definition withHistory (s : state) (history : list tensor) : state :=
  {| isLive := isLive s; confidence := confidence s;
     isModelLoaded := isModelLoaded s; error := error s;
     modelRef := modelRef s; faceHistoryRef := history |}.

(** Store face in history for motion analysis (keep last 5 frames) *)
Definition pushFace (history : list tensor) (face : tensor) : list tensor :=
  let pushed := history ++ [face] in
  if (5 <? List.length pushed)%nat then tl pushed else pushed.

(** The two validations that open the [try] block. *)
Definition validateFace (faceImageTensor : option tensor)
  : completion tensor :=
  match faceImageTensor with
  | None => Throw "Invalid face tensor format"
  | Some t =>
      if negb (List.length (shape t) =? 3)%nat
      then Throw "Invalid face tensor format"
      else
        tensorStats <- getTensorStats t ;;
        if hasInvalidValues tensorStats
        then Throw "Face image contains invalid data"
        else ret t
  end.

(** Preprocessing, inference and the read of the prediction data. *)
Definition classify (m : model) (faceImageTensor : tensor)
  : completion (list number) :=
  processedTensor <- preprocessFaceImage faceImageTensor ;;
  predictions <- predict m processedTensor ;;
  data predictions.

(** The rest of the [try] block once the passive result is not a spoof:
    validation of the prediction and fusion with the passive result. *)
Definition fuse (passiveResult : Passive.t) (predictionData : list number)
  : completion Verdict.t :=
  let liveProbability := item predictionData 1 in
  let spoofProbability := item predictionData 0 in
  if isNaN liveProbability || isNaN spoofProbability
  then Throw "Invalid prediction results"
  else
    let activeConfidence := JS.max liveProbability spoofProbability in
    let combinedConfidence :=
      (activeConfidence + Passive.confidence passiveResult) / 2 in
    let isLiveResult :=
      (spoofProbability <? liveProbability)
      && negb (Passive.isSpoof passiveResult) in
    ret {| Verdict.isLive := isLiveResult;
           Verdict.confidence := combinedConfidence;
           Verdict.passiveScore := Some (Passive.confidence passiveResult);
           Verdict.spoofReasons :=
             if Passive.isSpoof passiveResult
             then Passive.reasons passiveResult else [] |}.

Definition failed : string := "Failed to perform liveness detection".

(** One call of [detectLiveness(faceImageTensor)]: the value returned and
    the state of the hook afterwards. *)
Definition detectLiveness (faceImageTensor : option tensor) (s : state)
  : returned * state :=
  match modelRef s, isModelLoaded s with
  | Some m, true =>
      match validateFace faceImageTensor with
      | Throw _ => (Null, setError s failed)
      | Normal face =>
          let s1 := withHistory s (pushFace (faceHistoryRef s) face) in
          let passiveResult :=
            detectSpoofing (Some face) (removelast (faceHistoryRef s1)) in
          if Passive.isSpoof passiveResult then
            (Result
               {| Verdict.isLive := false;
                  Verdict.confidence := 1 - Passive.confidence passiveResult;
                  Verdict.passiveScore := None;
                  Verdict.spoofReasons := Passive.reasons passiveResult |},
             setVerdict s1 false (1 - Passive.confidence passiveResult))
          else
            match (predictionData <- classify m face ;;
                   fuse passiveResult predictionData) with
            | Throw _ => (Null, setError s1 failed)
            | Normal v =>
                (Result v,
                 setVerdict s1 (Verdict.isLive v) (Verdict.confidence v))
            end
      end
  | _, _ => (Undefined, setError s "Model not loaded")
  end.

End WithBackend.

End Detection.

(** ** A test double for the backend

    Used to evaluate the hook on concrete inputs.  Tensors are a shape and
    a flat, row-major vector of values.  The element-wise operations, the
    reductions and the slice along the second axis of a rank 3 tensor
    compute what their TensorFlow.js counterparts do.  The convolution,
    the Fourier transform and the resize are not computed: the double
    hands its argument back.

    The double is more permissive than TensorFlow.js, which throws at
    two of the calls the hook makes: [tf_tensor4d] here accepts the kernel
    of [analyzeTexture] although its nested array has shape 1,1,3,3 under
    the declared shape 3,3,1,1, and [tf_spectral_fft2d] exists here.  On
    the double the texture and the frequency analysis can therefore
    pass and the classifier path of [detectLiveness] can be reached; this
    shows that the hypotheses of the theorems about that path can be met
    by a backend, not that the running program meets them.
    [Library.tfjs] below throws at both calls as the library does.  The
    double also keeps binary64 values where the library stores
    float32. *)

Module Double.

Import JS.
Local Open Scope float_scope.
Local Open Scope js_scope.

Record tensor := { dims : list nat; vals : list number }.

Definition scalar (v : number) : tensor := {| dims := []; vals := [v] |}.

Definition total (values : list number) : number :=
  fold_left (fun a b => a + b) values 0.

Definition average (values : list number) : number :=
  total values / ofNat (List.length values).

Definition variance (values : list number) : number :=
  let m := average values in
  average (map (fun v => pow2 (v - m)) values).

Fixpoint zipWith (f : number -> number -> number) (a b : list number)
  : list number :=
  match a, b with
  | u :: a', v :: b' => f u v :: zipWith f a' b'
  | _, _ => []
  end.

(** The rows of a row-major vector, [width] values each. *)
Fixpoint rowsOf (rows width : nat) (values : list number)
  : list (list number) :=
  match rows with
  | O => []
  | S rows' => firstn width values :: rowsOf rows' width (skipn width values)
  end.

(** [tf.slice(t, [0, start, 0], [-1, size, -1])] on a rank 3 tensor. *)
Definition slice (t : tensor) (start size : list Z)
  : completion tensor :=
  match dims t, start, size with
  | [h; w; c], [0%Z; b; 0%Z], [(-1)%Z; n; (-1)%Z] =>
      if ((0 <=? b) && (0 <=? n) && (b + n <=? Z.of_nat w))%Z then
        let b := Z.to_nat b in
        let n := Z.to_nat n in
        ret {| dims := [h; n; c];
               vals := flat_map (fun row => firstn (n * c) (skipn (b * c) row))
                         (rowsOf h (w * c) (vals t)) |}
      else Throw "Error in slice: out of bounds"
  | _, _, _ => Throw "slice: not supported by the double"
  end.

#[export] Instance backend : Detection.Backend := {|
  Detection.tensor := tensor;
  Detection.shape := dims;
  Detection.data := fun t => ret (vals t);
  Detection.tf_mean_axis := fun t _ _ =>
    match rev (dims t) with
    | 1%nat :: _ => ret t
    | _ => Throw "mean: the double has single channel images only"
    end;
  Detection.expandDims := fun t axis =>
    if (axis =? 0)%Z then ret {| dims := 1%nat :: dims t; vals := vals t |}
    else ret {| dims := dims t ++ [1%nat]; vals := vals t |};
  Detection.tf_tensor4d := fun values shape =>
    ret {| dims := shape;
           vals := List.concat (List.concat (List.concat values)) |};
  Detection.tf_conv2d := fun t _ _ _ => ret t;
  Detection.tf_moments_variance := fun t => ret (scalar (variance (vals t)));
  Detection.tf_squaredDifference := fun a b =>
    if (List.length (vals a) =? List.length (vals b))%nat
    then ret {| dims := dims a;
                vals := zipWith (fun u v => pow2 (u - v)) (vals a) (vals b) |}
    else Throw "Operands could not be broadcast together";
  Detection.tf_mean := fun t => ret (scalar (average (vals t)));
  Detection.tf_spectral_fft2d := fun t => ret t;
  Detection.tf_abs := fun t =>
    ret {| dims := dims t; vals := map abs (vals t) |};
  Detection.tf_slice := slice;
  Detection.tf_sum := fun t => ret (scalar (total (vals t)));
  Detection.div := fun a b =>
    match vals b with
    | [d] => ret {| dims := dims a; vals := map (fun v => v / d) (vals a) |}
    | _ => Throw "div: the double divides by scalars only"
    end;
  Detection.divScalar := fun t c =>
    ret {| dims := dims t; vals := map (fun v => v / c) (vals t) |};
  Detection.tf_image_resizeBilinear := fun t _ => ret t
|}.

(** A one-row, single-channel crop: bright left half, dark right half. *)
Definition halfFace : tensor :=
  {| dims := [1; 224; 1]%nat; vals := repeat 1 112 ++ repeat 0 112 |}.

(** A nearly uniform crop. *)
Definition flatFace : tensor :=
  {| dims := [1; 224; 1]%nat; vals := 0.1 :: repeat 0 223 |}.

(** One-pixel crops. *)
Definition dark : tensor := {| dims := [1; 1; 1]%nat; vals := [0] |}.
Definition bright : tensor := {| dims := [1; 1; 1]%nat; vals := [1] |}.

(** A classifier that answers [[spoof, live]] whatever it is given. *)
Definition answering (spoof live : number) : Detection.model :=
  {| Detection.predict := fun _ =>
       ret {| dims := [1; 2]%nat; vals := [spoof; live] |} |}.

(** A classifier whose inference never finishes in time. *)
Definition stalling : Detection.model :=
  {| Detection.predict := fun _ => Throw "Inference timeout" |}.

(** The hook once [initializeModel] has succeeded with model [m]. *)
Definition loaded (m : Detection.model) (history : list tensor)
  : Detection.state :=
  {| Detection.isLive := None; Detection.confidence := 0;
     Detection.isModelLoaded := true; Detection.error := None;
     Detection.modelRef := Some m; Detection.faceHistoryRef := history |}.

End Double.

(** ** Sample landmarks *)

Module Samples.

Import JS Checks.
Local Open Scope float_scope.

(** A frame of 468 landmarks with both eyes 0.29 high and 1 wide; every
    other landmark sits at the origin. *)
Definition narrowEyes : landmarks :=
  map (fun i =>
         if ((i =? LEFT_EYE_TOP) || (i =? RIGHT_EYE_TOP))%nat
         then {| x := 0; y := 0.29 |}
         else if ((i =? LEFT_EYE_RIGHT) || (i =? RIGHT_EYE_RIGHT))%nat
         then {| x := 1; y := 0 |}
         else {| x := 0; y := 0 |})
      (seq 0 468).

(** A frame the landmark source cut short: the eye indices are missing. *)
Definition truncated : landmarks := firstn 100 narrowEyes.

(** A session waiting in the blink stage since [t = 1000]. *)
Definition blinking : state :=
  {| blinkDetected := false; headTurnDetected := false;
     smileDetected := false; currentAction := blink;
     actionProgress := 25; actionStartTime := Some 1000%Z;
     blinkHistory := [0.30; 0.28; 0.10; 0.08];
     headPositionHistory := [] |}.

End Samples.

(** ** Sequences of verification attempts *)

Module Attempts.

Import JS Detection.

Section WithBackend.

Context {B : Backend}.

(** The hook after a sequence of [detectLiveness] calls, one per face
    tensor handed in. *)
Definition after (s : state) (faces : list (option tensor)) : state :=
  fold_left (fun s face => snd (detectLiveness face s)) faces s.

(** The faces of a sequence that pass [validateFace], in order. *)
Definition accepted (faces : list (option tensor)) : list tensor :=
  flat_map (fun face => match validateFace face with
                        | Normal t => [t]
                        | Throw _ => []
                        end) faces.

End WithBackend.

End Attempts.

(** ** [extractFaceFromVideo]: the face crop *)

Module Extraction.

Import JS Checks Detection.
Local Open Scope float_scope.
Local Open Scope js_scope.

(** The part of the DOM the crop uses.  [drawAndRead v sx sy sw sh] stands
    for creating a 224 by 224 canvas, drawing onto it the source rectangle
    of the video with [drawImage], and reading it back with
    [tf.browser.fromPixels]; any of these may throw. *)
Class Dom {B : Backend} := {
  video : Type;
  videoWidth : video -> number;
  videoHeight : video -> number;
  drawAndRead :
    video -> number -> number -> number -> number -> completion tensor
}.

(** The four running bounds of the bounding box. *)
Record box := { minX : number; minY : number; maxX : number; maxY : number }.

(** Calculate face bounding box from landmarks: the [forEach] loop. *)
Definition boundingBox (lm : landmarks) : box :=
  fold_left
    (fun b landmark =>
       {| minX := JS.min (minX b) (x landmark);
          minY := JS.min (minY b) (y landmark);
          maxX := JS.max (maxX b) (x landmark);
          maxY := JS.max (maxY b) (y landmark) |})
    lm
    {| minX := infinity; minY := infinity;
       maxX := neg_infinity; maxY := neg_infinity |}.

(** Add padding around the face, clamped to the frame. *)
Definition padded (b : box) : box :=
  let padding := 0.2 in
  let width := maxX b - minX b in
  let height := maxY b - minY b in
  {| minX := JS.max 0 (minX b - width * padding);
     minY := JS.max 0 (minY b - height * padding);
     maxX := JS.min 1 (maxX b + width * padding);
     maxY := JS.min 1 (maxY b + height * padding) |}.

Section WithDom.

Context {B : Backend} {D : Dom}.

(** [tensor.shape[0] !== 224 || tensor.shape[1] !== 224] *)
Definition wrongDimensions (t : tensor) : bool :=
  match shape t with
  | h :: w :: _ => negb (h =? 224)%nat || negb (w =? 224)%nat
  | _ => true
  end.

Definition extractFaceFromVideo (videoElement : option video)
    (lm : option landmarks) : option tensor :=
  match videoElement, lm with
  | Some videoElement, Some ((_ :: _) as lm) =>
      tryCatch
        (let b := padded (boundingBox lm) in
         let faceX := minX b * videoWidth videoElement in
         let faceY := minY b * videoHeight videoElement in
         let faceWidth := (maxX b - minX b) * videoWidth videoElement in
         let faceHeight := (maxY b - minY b) * videoHeight videoElement in
         t <- drawAndRead videoElement faceX faceY faceWidth faceHeight ;;
         if wrongDimensions t
         then Throw "Face extraction produced incorrect dimensions"
         else ret (Some t))
        None
  | _, _ => None
  end.

End WithDom.

End Extraction.

(** ** [FaceLivenessDetector]: running the verification *)

Module Detector.

Import JS Checks Detection Extraction.

(** What [setDetectionResult] stores. *)
Record detection := {
  isLive : bool;
  confidence : number;
  timestamp : string
}.

(** The two [useState] cells of the component that the verification
    reads and writes. *)
Record component := {
  detectionResult : option detection;
  isProcessing : bool
}.

Section WithDom.

Context {B : Backend} {D : Dom}.

(** One run of [processLivenessDetection] with the landmarks and the
    video the component holds; [now] is [new Date().toISOString()].  The
    result is the component cells and the state of the detection hook
    afterwards. *)
Definition processLivenessDetection (now : string)
    (faceLandmarks : option landmarks) (videoRef : option video)
    (c : component) (s : Detection.state) : component * Detection.state :=
  match faceLandmarks, videoRef, isProcessing c with
  | Some _, Some _, false =>
      match extractFaceFromVideo videoRef faceLandmarks with
      | Some faceTensor =>
          let '(result, s') := detectLiveness (Some faceTensor) s in
          match result with
          | Result v =>
              ({| detectionResult :=
                    Some {| isLive := Verdict.isLive v;
                            confidence := Verdict.confidence v;
                            timestamp := now |};
                  isProcessing := false |}, s')
          | _ =>
              ({| detectionResult := detectionResult c;
                  isProcessing := false |}, s')
          end
      | None =>
          ({| detectionResult := detectionResult c;
              isProcessing := false |}, s)
      end
  | _, _, _ => (c, s)
  end.

(** The effect "auto-complete when all actions are done": it runs the
    verification when the sequencer is complete and no result is
    stored. *)
Definition autoComplete (now : string) (checks : Checks.state)
    (faceLandmarks : option landmarks) (videoRef : option video)
    (c : component) (s : Detection.state) : component * Detection.state :=
  match currentAction checks, detectionResult c with
  | complete, None => processLivenessDetection now faceLandmarks videoRef c s
  | _, _ => (c, s)
  end.

(** [handleStartVerification]: clears the stored result and resets the
    sequencer. *)
Definition handleStartVerification (c : component) (checks : Checks.state)
  : component * Checks.state :=
  ({| detectionResult := None; isProcessing := isProcessing c |},
   resetChecks checks).

End WithDom.

End Detector.

(** ** A test double for the DOM *)

Module DomDouble.

Import JS Detection Extraction.

Set Warnings "-abstract-large-number".

(** A video of known size whose canvas read-back is scripted. *)
Record video := {
  width : number;
  height : number;
  readBack : completion Double.tensor
}.

#[export] Instance dom : Dom (B := Double.backend) := {|
  Extraction.video := video;
  Extraction.videoWidth := width;
  Extraction.videoHeight := height;
  Extraction.drawAndRead := fun v _ _ _ _ =>
    (readBack v : completion (@Detection.tensor Double.backend))
|}.

(** A 224 by 224 image of three channels, dark except for a bright first
    row. *)
Definition frame : Double.tensor :=
  {| Double.dims := [224; 224; 3]%nat;
     Double.vals := repeat 1%float 672 ++ repeat 0%float 149856 |}.

(** A 640 by 480 camera whose crop reads back as [frame]. *)
Definition camera : video :=
  {| width := 640%float; height := 480%float; readBack := Normal frame |}.

(** A camera whose canvas cannot be read. *)
Definition blocked : video :=
  {| width := 640%float; height := 480%float;
     readBack := Throw "SecurityError: the canvas has been tainted" |}.

End DomDouble.

(** ** Invariants of a session *)

Module Invariants.

Import JS Checks.
Local Open Scope Z_scope.

(** All clock readings of the frames lie in [[lo, hi]]. *)
Definition clockWithin (lo hi : Z) (events : list event) : Prop :=
  Forall (fun e => match e with
                   | Frame currentTime _ => lo <= currentTime <= hi
                   | Reset => True
                   end) events.

(** The dwell timer accounts for the stages passed: a stage before
    [complete] was entered no earlier than 500ms per stage after [lo]. *)
Definition paced (lo hi : Z) (s : state) : Prop :=
  500 * rank (currentAction s) <= hi - lo
  /\ match actionStartTime s with
     | Some started =>
         currentAction s = complete
         \/ lo + 500 * rank (currentAction s) <= started <= hi
     | None => currentAction s = face_detection \/ currentAction s = complete
     end.

(** Each detection flag is set exactly when its stage has been passed. *)
Definition flagged (s : state) : Prop :=
  blinkDetected s = (2 <=? rank (currentAction s))
  /\ headTurnDetected s = (3 <=? rank (currentAction s))
  /\ smileDetected s = (4 <=? rank (currentAction s)).

(** The last [k] elements of a list. *)
Definition lastn {A} (k : nat) (l : list A) : list A :=
  skipn (List.length l - k) l.

End Invariants.

(** ** A frame with all three gestures *)

Module Gestures.

Import JS Checks.
Local Open Scope float_scope.

(** A frame of 468 landmarks with both eyes 0.1 high and 1 wide, the nose
    0.5 from the left ear and 0.3 from the right one, and a mouth 0.4
    wide and 0.1 high. *)
Definition performing : landmarks :=
  map (fun i =>
         if ((i =? LEFT_EYE_TOP) || (i =? RIGHT_EYE_TOP))%nat
         then {| x := 0; y := 0.1 |}
         else if ((i =? LEFT_EYE_RIGHT) || (i =? RIGHT_EYE_RIGHT))%nat
         then {| x := 1; y := 0 |}
         else if (i =? NOSE_TIP)%nat then {| x := 0.5; y := 0 |}
         else if (i =? RIGHT_EAR)%nat then {| x := 0.8; y := 0 |}
         else if (i =? MOUTH_RIGHT)%nat then {| x := 0.4; y := 0 |}
         else if (i =? MOUTH_TOP)%nat then {| x := 0.2; y := 0.05 |}
         else if (i =? MOUTH_BOTTOM)%nat then {| x := 0.2; y := -0.05 |}
         else {| x := 0; y := 0 |})
      (seq 0 468).

(** The same frame with a left eye whose top landmark lost its height. *)
Definition corrupted : landmarks :=
  map (fun i =>
         if (i =? LEFT_EYE_TOP)%nat then {| x := 0; y := nan |}
         else nth i performing {| x := 0; y := 0 |})
      (seq 0 468).

(** A landmark with a coordinate that is NaN. *)
Definition corrupt (p : landmark) : Prop :=
  is_nan (x p) = true \/ is_nan (y p) = true.

End Gestures.

(** ** The mean, as the specification words it *)

Module Reading.

Import JS.
Local Open Scope float_scope.



End Reading.

(** ** A backend that throws where TensorFlow.js does

    TensorFlow.js has no [tf.spectral.fft2d] ([tf.spectral] offers [fft],
    [ifft], [rfft] and [irfft]), so the call throws a [TypeError]; and
    [tf.tensor4d] throws when the shape inferred from the nested array
    differs from the shape passed with it.  This backend is the double
    with these two operations throwing as the library does. *)

Module Library.

Import JS.
Local Open Scope js_scope.

(** The shape [tf.tensor4d] infers from a nested array. *)
Definition inferShape (values : list (list (list (list number))))
  : list nat :=
  let d1 := hd [] values in
  let d2 := hd [] d1 in
  let d3 := hd [] d2 in
  [List.length values; List.length d1; List.length d2; List.length d3].

Definition sameShape (a b : list nat) : bool :=
  (List.length a =? List.length b)%nat
  && forallb (fun '(u, v) => (u =? v)%nat) (combine a b).

Definition tfjs : Detection.Backend := {|
  Detection.tensor := Double.tensor;
  Detection.shape := @Detection.shape Double.backend;
  Detection.data := @Detection.data Double.backend;
  Detection.tf_mean_axis := @Detection.tf_mean_axis Double.backend;
  Detection.expandDims := @Detection.expandDims Double.backend;
  Detection.tf_tensor4d := fun values shape =>
    if sameShape (inferShape values) shape
    then @Detection.tf_tensor4d Double.backend values shape
    else Throw "Error creating a new Tensor: inferred shape mismatch";
  Detection.tf_conv2d := @Detection.tf_conv2d Double.backend;
  Detection.tf_moments_variance :=
    @Detection.tf_moments_variance Double.backend;
  Detection.tf_squaredDifference :=
    @Detection.tf_squaredDifference Double.backend;
  Detection.tf_mean := @Detection.tf_mean Double.backend;
  Detection.tf_spectral_fft2d := fun _ =>
    Throw "TypeError: tf.spectral.fft2d is not a function";
  Detection.tf_abs := @Detection.tf_abs Double.backend;
  Detection.tf_slice := @Detection.tf_slice Double.backend;
  Detection.tf_sum := @Detection.tf_sum Double.backend;
  Detection.div := @Detection.div Double.backend;
  Detection.divScalar := @Detection.divScalar Double.backend;
  Detection.tf_image_resizeBilinear :=
    @Detection.tf_image_resizeBilinear Double.backend
|}.


(** A 224 by 224 crop of three channels in which every value is 0.5.
    The Fourier transform of a constant image has all its energy at
    frequency zero, none in the outer half of the spectrum. *)
Definition uniform : Double.tensor :=
  {| Double.dims := [224; 224; 3]%nat;
     Double.vals := repeat 0.5%float (224 * 224 * 3) |}.

(** The hook on this backend once the model [m] is loaded. *)
Definition loaded (m : @Detection.model tfjs)
    (history : list Double.tensor) : @Detection.state tfjs :=
  @Detection.Build_state tfjs None 0%float true None (Some m) history.

(** A classifier on this backend that answers [[spoof, live]]. *)
Definition answering (spoof live : number) : @Detection.model tfjs :=
  @Detection.Build_model tfjs
    (fun _ => ret {| Double.dims := [1; 2]%nat;
                     Double.vals := [spoof; live] |}).

End Library.

(** * Properties of the action sequencer and of the blink detector *)

Section SequencerFacts.

Import JS Checks.
Local Open Scope Z_scope.

(** The shape of a successful invocation: either nothing the sequencer
    shows has moved, or the stage has moved to its successor with the
    progress that belongs to it. *)
Lemma checkLivenessAction_moves currentTime lm s s' :
  checkLivenessAction currentTime lm s = Normal s' ->
  (currentAction s' = currentAction s /\ actionProgress s' = actionProgress s)
  \/ (rank (currentAction s') = rank (currentAction s) + 1
      /\ actionProgress s' = 25 * rank (currentAction s')).
Proof.
  unfold checkLivenessAction.
  destruct lm as [l|]; [|intros [= <-]; now left].
  destruct (unset (actionStartTime s)); [intros [= <-]; now left|].
  destruct (_ <? 500); [intros [= <-]; now left|].
  destruct (currentAction s) eqn:stage; cbn [bind].
  - intros [= <-]; right; cbn; auto.
  - destruct (detectBlink _ _) as [[[|] h]|]; cbn [bind]; intros [= <-]; cbn;
      rewrite ?stage; auto.
  - destruct (detectHeadTurn _) as [[|]|]; cbn [bind]; intros [= <-]; cbn;
      rewrite ?stage; auto.
  - destruct (detectSmile _) as [[|]|]; cbn [bind]; intros [= <-]; cbn;
      rewrite ?stage; auto.
  - intros [= <-]; left; auto.
Qed.

Lemma step_frame_moves currentTime lm s :
  let s' := step s (Frame currentTime lm) in
  (currentAction s' = currentAction s /\ actionProgress s' = actionProgress s)
  \/ (rank (currentAction s') = rank (currentAction s) + 1
      /\ actionProgress s' = 25 * rank (currentAction s')).
Proof.
  cbn [step]. destruct (checkLivenessAction currentTime lm s) eqn:call;
    cbn [tryCatch]; [|now left].
  exact (checkLivenessAction_moves _ _ _ _ call).
Qed.

(** Progress and stage stay aligned along every session. *)
Lemma step_aligned s e :
  actionProgress s = 25 * rank (currentAction s) ->
  actionProgress (step s e) = 25 * rank (currentAction (step s e)).
Proof.
  intros inv. destruct e as [currentTime lm|]; [|reflexivity].
  destruct (step_frame_moves currentTime lm s) as [[same_stage same]|[_ moved]].
  - rewrite same, same_stage. exact inv.
  - exact moved.
Qed.

Lemma run_aligned events : forall s,
  actionProgress s = 25 * rank (currentAction s) ->
  actionProgress (run s events) = 25 * rank (currentAction (run s events)).
Proof.
  induction events as [|e rest IH]; intros s inv; [exact inv|].
  apply (IH (step s e)). now apply step_aligned.
Qed.

Lemma rank_bounds a : 0 <= rank a <= 4.
Proof. destruct a; cbn; lia. Qed.

(** C3: along every session (any sequence of frames and resets from the
    initial state) the progress is 25 times the position of the stage in
    face_detection, blink, head_turn, smile, complete, hence one of
    0, 25, 50, 75, 100; an invocation of checkLivenessAction keeps the
    stage or moves it to its immediate successor, and never lowers the
    progress; only a reset goes back, to the initial state. *)
Theorem sequencer_forward (events : list event) (e : event) :
  let s := run initial events in
  let s' := step s e in
  actionProgress s = 25 * rank (currentAction s)
  /\ In (actionProgress s) [0; 25; 50; 75; 100]
  /\ match e with
     | Frame _ _ =>
         (currentAction s' = currentAction s
          \/ rank (currentAction s') = rank (currentAction s) + 1)
         /\ actionProgress s <= actionProgress s'
     | Reset => s' = initial
     end.
Proof.
  intros s s'.
  assert (inv : actionProgress s = 25 * rank (currentAction s))
    by (apply run_aligned; reflexivity).
  split; [exact inv|]. split.
  - rewrite inv. destruct (currentAction s); cbn; auto 6.
  - destruct e as [currentTime lm|]; [|reflexivity].
    subst s'.
    destruct (step_frame_moves currentTime lm s)
      as [[same_stage same]|[next moved]].
    + split; [now left|lia].
    + split; [now right|]. rewrite moved, next, inv. lia.
Qed.

(** C4: an invocation less than 500ms after the dwell timer was set
    returns normally and leaves the stage, the progress, the three
    detection flags and the blink history as they were; conversely an
    invocation that changes the stage found the timer set at least 500ms
    earlier, and restarts it at the time of the transition unless the new
    stage is the terminal one; an invocation that keeps the stage keeps a
    timer that was set, so the timer dates from the entry into the stage
    (or, in the first stage, from the first frame with a face). *)
Theorem dwell_guard (currentTime : Z) (lm : option landmarks) (s : state) :
  (forall started,
      actionStartTime s = Some started ->
      currentTime - started < 500 ->
      exists s',
        checkLivenessAction currentTime lm s = Normal s'
        /\ currentAction s' = currentAction s
        /\ actionProgress s' = actionProgress s
        /\ blinkDetected s' = blinkDetected s
        /\ headTurnDetected s' = headTurnDetected s
        /\ smileDetected s' = smileDetected s
        /\ blinkHistory s' = blinkHistory s)
  /\ (forall s',
         checkLivenessAction currentTime lm s = Normal s' ->
         currentAction s' <> currentAction s ->
         (exists started,
             actionStartTime s = Some started
             /\ 500 <= currentTime - started)
         /\ (currentAction s' <> complete ->
             actionStartTime s' = Some currentTime))
  /\ (forall s',
         checkLivenessAction currentTime lm s = Normal s' ->
         currentAction s' = currentAction s ->
         unset (actionStartTime s) = false ->
         actionStartTime s' = actionStartTime s).
Proof.
  split; [|split].
  - intros started timer early. unfold checkLivenessAction.
    destruct lm as [l|]; [|exists s; auto 10].
    rewrite timer. cbn [unset].
    destruct (started =? 0); [eexists; split; [reflexivity|cbn; auto 10]|].
    destruct (Z.ltb_spec (currentTime - started) 500); [|lia].
    exists s; auto 10.
  - unfold checkLivenessAction. intros s'.
    destruct lm as [l|]; [|intros [= <-] moved; now destruct moved].
    destruct (actionStartTime s) as [started|]; cbn [unset];
      [|intros [= <-] moved; now destruct moved].
    destruct (started =? 0); [intros [= <-] moved; now destruct moved|].
    destruct (Z.ltb_spec (currentTime - started) 500);
      [intros [= <-] moved; now destruct moved|].
    intros call moved. split; [exists started; auto|].
    revert call moved.
    destruct (currentAction s) eqn:stage; cbn [bind].
    + intros [= <-]; cbn; auto.
    + destruct (detectBlink _ _) as [[[|] h]|]; cbn [bind]; intros [= <-];
        cbn; rewrite ?stage; intros moved; auto; now destruct moved.
    + destruct (detectHeadTurn _) as [[|]|]; cbn [bind]; intros [= <-];
        cbn; rewrite ?stage; intros moved; auto; now destruct moved.
    + destruct (detectSmile _) as [[|]|]; cbn [bind]; intros [= <-];
        cbn; rewrite ?stage; intros moved; [intros done; now destruct done|];
        now destruct moved.
    + intros [= <-] moved; now destruct moved.
  - unfold checkLivenessAction. intros s'.
    destruct lm as [l|]; [|now intros [= <-]].
    destruct (unset (actionStartTime s)); [intros _ _ [=]|].
    destruct (_ <? 500); [now intros [= <-]|].
    destruct (currentAction s) eqn:stage; cbn [bind].
    + intros [= <-]; cbn; discriminate.
    + destruct (detectBlink _ _) as [[[|] h]|]; cbn [bind]; intros [= <-];
        cbn; rewrite ?stage; auto; discriminate.
    + destruct (detectHeadTurn _) as [[|]|]; cbn [bind]; intros [= <-];
        cbn; rewrite ?stage; auto; discriminate.
    + destruct (detectSmile _) as [[|]|]; cbn [bind]; intros [= <-];
        cbn; rewrite ?stage; auto; discriminate.
    + now intros [= <-].
Qed.

(** [dwell_guard] at a session in the blink stage since 1000, called at
    1400 with a face that would otherwise count as a blink. *)
Lemma dwell_guard_witness :
  exists s',
    checkLivenessAction 1400 (Some Samples.narrowEyes) Samples.blinking
    = Normal s'
    /\ currentAction s' = blink
    /\ actionProgress s' = 25
    /\ blinkDetected s' = false
    /\ headTurnDetected s' = false
    /\ smileDetected s' = false
    /\ blinkHistory s' = blinkHistory Samples.blinking.
Proof.
  apply (proj1 (dwell_guard 1400 (Some Samples.narrowEyes) Samples.blinking)
           1000); [reflexivity|lia].
Defined.

End SequencerFacts.

Section BlinkFacts.

Import JS Checks.










End BlinkFacts.

(** * Properties of the passive analyses and of the fusion *)

Section DetectionFacts.

Import JS Detection.
Context {B : Backend}.
Local Open Scope float_scope.

(** Case analysis on the outermost operation of a pipeline. *)
Ltac pipeline :=
  repeat match goal with
         | |- context [bind ?c _] => destruct c; cbn [bind tryCatch]
         end.

Lemma analyzeTexture_binary faceTensor :
  analyzeTexture faceTensor = 0 \/ analyzeTexture faceTensor = 1.
Proof.
  unfold analyzeTexture. destruct faceTensor as [t|]; [|now left].
  pipeline; auto. destruct (_ <? _); auto.
Qed.

Lemma analyzeMotion_binary currentFace previousFaces :
  analyzeMotion currentFace previousFaces = 0
  \/ analyzeMotion currentFace previousFaces = 1.
Proof.
  unfold analyzeMotion. destruct currentFace as [t|]; [|now left].
  destruct (_ <? 3)%nat; [now left|].
  destruct (motionLoop _ _ _ _) as [[totalMotion motionCount]|];
    cbn [bind tryCatch]; auto.
  destruct (_ <? _); auto.
Qed.

Lemma analyzeFrequencyDomain_binary faceTensor :
  analyzeFrequencyDomain faceTensor = 0
  \/ analyzeFrequencyDomain faceTensor = 1.
Proof.
  unfold analyzeFrequencyDomain. destruct faceTensor as [t|]; [|now left].
  pipeline; auto. destruct (_ <? _); auto.
Qed.

(** Splits a goal about [detectSpoofing (Some t) history] into the eight
    combinations of sub-scores. *)
Ltac subscores t history :=
  destruct (analyzeTexture_binary (Some t)) as [-> | ->];
  destruct (analyzeMotion_binary (Some t) history) as [-> | ->];
  destruct (analyzeFrequencyDomain_binary (Some t)) as [-> | ->].

(** The doubles 0 and 1 are distinct values. *)
Lemma one_is_not_zero : 0 = 1 -> False.
Proof.
  intros absurd. apply (f_equal (fun v => v <? 0.5)) in absurd.
  vm_compute in absurd. discriminate absurd.
Qed.

(** A spoof verdict of the passive analysis has aggregate 0 or 1/3. *)
Lemma spoof_confidence t history :
  Passive.isSpoof (detectSpoofing (Some t) history) = true ->
  Passive.confidence (detectSpoofing (Some t) history) = 0
  \/ Passive.confidence (detectSpoofing (Some t) history) = 1 / 3.
Proof.
  unfold detectSpoofing. subscores t history; vm_compute; auto; discriminate.
Qed.

(** C5: without a face tensor detectSpoofing returns the spoof verdict
    with confidence 0 and the single reason "No face data". *)
Theorem detectSpoofing_no_face (faceHistory : list tensor) :
  detectSpoofing None faceHistory
  = {| Passive.isSpoof := true; Passive.confidence := 0;
       Passive.reasons := ["No face data"%string] |}.
Proof. reflexivity. Qed.

(** C2: for a face tensor and any crop history, the confidence returned
    by detectSpoofing is the sum of the texture, motion and frequency
    scores divided by 3, each score lying between 0 and 1; isSpoof is the
    test confidence < 0.5; each of the three tags is among the reasons
    exactly when its score is below 0.5, and there are no other reasons.
    With scores 0, 1, 1 the confidence is 0.667 up to rounding, isSpoof is
    false and the reasons are ["Low texture detail"]. *)
Theorem detectSpoofing_aggregate (t : tensor) (faceHistory : list tensor) :
  let textureScore := analyzeTexture (Some t) in
  let motionScore := analyzeMotion (Some t) faceHistory in
  let frequencyScore := analyzeFrequencyDomain (Some t) in
  let r := detectSpoofing (Some t) faceHistory in
  let has tag := existsb (String.eqb tag) (Passive.reasons r) in
  let below (score : number) := if score <? 0.5 then 1%nat else 0%nat in
  ((0 <=? textureScore) && (textureScore <=? 1) = true
   /\ (0 <=? motionScore) && (motionScore <=? 1) = true
   /\ (0 <=? frequencyScore) && (frequencyScore <=? 1) = true)
  /\ Passive.confidence r = (textureScore + motionScore + frequencyScore) / 3
  /\ Passive.isSpoof r = (Passive.confidence r <? 0.5)
  /\ (has "Low texture detail"%string = (textureScore <? 0.5)
      /\ has "Insufficient motion"%string = (motionScore <? 0.5)
      /\ has "Digital artifacts detected"%string = (frequencyScore <? 0.5)
      /\ List.length (Passive.reasons r)
         = (below textureScore + below motionScore + below frequencyScore)%nat)
  /\ (textureScore = 0 -> motionScore = 1 -> frequencyScore = 1 ->
      (abs (Passive.confidence r - 0.667) <? 0.0005) = true
      /\ Passive.isSpoof r = false
      /\ Passive.reasons r = ["Low texture detail"%string]).
Proof.
  cbv zeta. unfold detectSpoofing.
  split; [|split; [reflexivity|split; [reflexivity|split]]].
  - subscores t faceHistory; repeat split; reflexivity.
  - subscores t faceHistory; repeat split; reflexivity.
  - intros -> -> ->. repeat split; reflexivity.
Qed.

(** C10: each of the three analyses returns exactly 0 or exactly 1, so
    the confidence of detectSpoofing is the double 0, 1/3, 2/3 or 1 and
    isSpoof holds exactly when at most one analysis returned 1; when
    detectLiveness returns on its spoof path (the verdict without
    passiveScore) the confidence it reports, 1 minus that aggregate, is 1
    or the double 1 - 1/3, which is 2/3 up to the last bit. *)
Theorem subscores_binary (t : tensor) (faceHistory : list tensor) :
  let textureScore := analyzeTexture (Some t) in
  let motionScore := analyzeMotion (Some t) faceHistory in
  let frequencyScore := analyzeFrequencyDomain (Some t) in
  let r := detectSpoofing (Some t) faceHistory in
  let passed (score : number) := if score =? 1 then 1%nat else 0%nat in
  (forall faceTensor previousFaces,
      (analyzeTexture faceTensor = 0 \/ analyzeTexture faceTensor = 1)
      /\ (analyzeMotion faceTensor previousFaces = 0
          \/ analyzeMotion faceTensor previousFaces = 1)
      /\ (analyzeFrequencyDomain faceTensor = 0
          \/ analyzeFrequencyDomain faceTensor = 1))
  /\ (Passive.confidence r = 0 \/ Passive.confidence r = 1 / 3
      \/ Passive.confidence r = 2 / 3 \/ Passive.confidence r = 1)
  /\ Passive.isSpoof r
     = (passed textureScore + passed motionScore + passed frequencyScore
        <=? 1)%nat
  /\ (forall face s v s',
         detectLiveness face s = (Result v, s') ->
         Verdict.passiveScore v = None ->
         (Verdict.confidence v = 1 \/ Verdict.confidence v = 1 - 1 / 3)
         /\ ((Verdict.confidence v =? 1)
             || (abs (Verdict.confidence v - 2 / 3) <? 0x1p-52)) = true).
Proof.
  cbv zeta. split; [|split; [|split]].
  - auto using analyzeTexture_binary, analyzeMotion_binary,
      analyzeFrequencyDomain_binary.
  - unfold detectSpoofing. subscores t faceHistory; cbn; auto.
  - unfold detectSpoofing. subscores t faceHistory; reflexivity.
  - intros face s v s'. unfold detectLiveness.
    destruct (modelRef s) as [m|]; [|discriminate].
    destruct (isModelLoaded s); [|discriminate].
    destruct (validateFace face) as [f|]; [|discriminate].
    cbv zeta.
    set (history := removelast _).
    pose proof (spoof_confidence f history) as low.
    destruct (detectSpoofing (Some f) history) as [spoof c reasons].
    cbn [Passive.isSpoof Passive.confidence Passive.reasons] in *.
    destruct spoof.
    + intros [= <- _] _. cbn [Verdict.confidence].
      destruct (low eq_refl) as [-> | ->]; split; auto.
    + destruct (classify m f) as [predictionData|]; cbn [bind];
        [|discriminate].
      unfold fuse. destruct (_ || _); [discriminate|].
      intros [= <- _] absent. cbn in absent. discriminate absent.
Qed.

(** What [detectLiveness] hands to the motion analysis: the retained
    history without the crop just pushed. *)
Lemma previous_faces (history : list tensor) (face : tensor) :
  (List.length history < 5 -> removelast (pushFace history face) = history)%nat
  /\ (List.length history = 5%nat ->
      removelast (pushFace history face) = tl history).
Proof.
  unfold pushFace. rewrite length_app. cbn [List.length].
  split; intros len.
  - destruct (Nat.ltb_spec 5 (List.length history + 1)%nat); [lia|].
    apply removelast_last.
  - destruct (Nat.ltb_spec 5 (List.length history + 1)%nat); [|lia].
    destruct history as [|h rest]; [discriminate|].
    cbn [app tl]. apply removelast_last.
Qed.

(** C1: once the model is loaded and the face tensor is valid, with F the
    passive result: if F.isSpoof, detectLiveness returns isLive = false,
    confidence = 1 - F.confidence and spoofReasons = F.reasons whatever
    the classifier is and without consulting it; otherwise, for prediction
    data without NaN, it returns confidence =
    (max(live, spoof) + F.confidence) / 2 and
    isLive = (live > spoof) && !F.isSpoof, where spoof and live are entries
    0 and 1 of the data.  The fusion itself never answers live for a
    passive result that is a spoof. *)
Theorem fusion (faceImageTensor : option tensor) (s : state) (m : model)
    (face : tensor) :
  modelRef s = Some m ->
  isModelLoaded s = true ->
  validateFace faceImageTensor = Normal face ->
  let F := detectSpoofing (Some face)
             (removelast (pushFace (faceHistoryRef s) face)) in
  (Passive.isSpoof F = true ->
   fst (detectLiveness faceImageTensor s)
   = Result {| Verdict.isLive := false;
               Verdict.confidence := 1 - Passive.confidence F;
               Verdict.passiveScore := None;
               Verdict.spoofReasons := Passive.reasons F |})
  /\ (Passive.isSpoof F = false ->
      forall predictionData,
        classify m face = Normal predictionData ->
        let liveProbability := item predictionData 1 in
        let spoofProbability := item predictionData 0 in
        isNaN liveProbability = false ->
        isNaN spoofProbability = false ->
        exists v,
          fst (detectLiveness faceImageTensor s) = Result v
          /\ Verdict.confidence v
             = (JS.max liveProbability spoofProbability
                + Passive.confidence F) / 2
          /\ Verdict.isLive v
             = (spoofProbability <? liveProbability)
               && negb (Passive.isSpoof F))
  /\ (forall (P : Passive.t) predictionData v,
         fuse P predictionData = Normal v ->
         Passive.isSpoof P = true ->
         Verdict.isLive v = false).
Proof.
  intros Hmodel Hloaded Hvalid F.
  unfold detectLiveness. rewrite Hmodel, Hloaded, Hvalid.
  cbv zeta. cbn [faceHistoryRef withHistory]. fold F.
  split; [|split].
  - intros spoofed. rewrite spoofed. reflexivity.
  - intros passed predictionData -> live spoof.
    rewrite passed. cbn [bind]. unfold fuse.
    rewrite live, spoof. cbn [orb].
    eexists. split; [reflexivity|]. rewrite passed. split; reflexivity.
  - intros P predictionData v. unfold fuse.
    destruct (_ || _); [discriminate|].
    intros [= <-] ->. cbn. apply andb_false_r.
Qed.


End DetectionFacts.

(** * The theorems on concrete inputs *)

Section OnTheDouble.

Import JS Detection Double.
Local Open Scope float_scope.

(** [detectSpoofing_aggregate] on a nearly uniform crop after three bright
    and dark ones: texture fails, motion and frequency pass. *)
Lemma detectSpoofing_aggregate_witness :
  let r := detectSpoofing (Some flatFace) [halfFace; halfFace; halfFace] in
  (abs (Passive.confidence r - 0.667) <? 0.0005) = true
  /\ Passive.isSpoof r = false
  /\ Passive.reasons r = ["Low texture detail"%string].
Proof.
  apply (proj2 (proj2 (proj2 (proj2
    (detectSpoofing_aggregate (B := backend) flatFace
       [halfFace; halfFace; halfFace])))));
    vm_compute; reflexivity.
Defined.

(** [subscores_binary] on a first attempt with a nearly uniform crop: only
    the frequency analysis passes and the spoof path reports 1 - 1/3. *)
Lemma subscores_binary_witness :
  exists v s',
    detectLiveness (Some flatFace) (loaded stalling []) = (Result v, s')
    /\ Verdict.passiveScore v = None
    /\ (Verdict.confidence v = 1 \/ Verdict.confidence v = 1 - 1 / 3)
    /\ ((Verdict.confidence v =? 1)
        || (abs (Verdict.confidence v - 2 / 3) <? 0x1p-52)) = true.
Proof.
  eexists. eexists.
  split; [vm_compute; reflexivity|].
  split; [reflexivity|].
  eapply (proj2 (proj2 (proj2 (subscores_binary (B := backend) flatFace [])))
            (Some flatFace) (loaded stalling []));
    vm_compute; reflexivity.
Defined.

(** [fusion] on both paths: a crop that passes two analyses with a
    classifier answering spoof 0.1, live 0.85; and a crop that passes one
    analysis with a classifier that never answers. *)
Lemma fusion_witness :
  (exists v,
      fst (detectLiveness (Some halfFace) (loaded (answering 0.1 0.85) []))
      = Result v
      /\ Verdict.confidence v = (0.85 + 2 / 3) / 2
      /\ Verdict.isLive v = true)
  /\ fst (detectLiveness (Some flatFace) (loaded stalling []))
     = Result {| Verdict.isLive := false;
                 Verdict.confidence := 1 - 1 / 3;
                 Verdict.passiveScore := None;
                 Verdict.spoofReasons :=
                   ["Low texture detail"%string;
                    "Insufficient motion"%string] |}.
Proof.
  split.
  - exact (proj1 (proj2
      (fusion (B := backend) (Some halfFace)
         (loaded (answering 0.1 0.85) []) (answering 0.1 0.85) halfFace
         eq_refl eq_refl eq_refl))
      eq_refl [0.1; 0.85] eq_refl eq_refl eq_refl).
  - exact (proj1
      (fusion (B := backend) (Some flatFace) (loaded stalling []) stalling
         flatFace eq_refl eq_refl eq_refl)
      eq_refl).
Defined.



End OnTheDouble.

(** * Further properties of the action sequencer *)

Section SessionFacts.

Import JS Checks Invariants.
Local Open Scope Z_scope.

Lemma step_paced lo hi s e :
  0 < lo -> lo <= hi ->
  match e with
  | Frame currentTime _ => lo <= currentTime <= hi
  | Reset => True
  end ->
  paced lo hi s -> paced lo hi (step s e).
Proof.
  intros positive ordered clock inv.
  destruct e as [currentTime lm|]; [|split; cbn; [lia|now left]].
  cbn [step]. unfold checkLivenessAction.
  destruct lm as [l|]; [|exact inv].
  destruct (unset (actionStartTime s)) eqn:Hunset.
  - cbn [tryCatch]. destruct inv as [spread timer].
    split; [exact spread|]. cbn.
    destruct (actionStartTime s) as [started|]; cbn [unset] in Hunset.
    + apply Z.eqb_eq in Hunset. subst started.
      destruct timer as [done|[? ?]]; [now left|].
      pose proof (rank_bounds (currentAction s)). lia.
    + destruct timer as [-> | ->]; [right; cbn; lia|now left].
  - destruct (actionStartTime s) as [started|] eqn:Htimer; [|discriminate].
    destruct (Z.ltb_spec (currentTime - started) 500) as [early|late];
      [exact inv|].
    destruct inv as [spread timer]. rewrite Htimer in timer.
    unfold paced.
    destruct (currentAction s) eqn:stage; cbn [bind tryCatch rank] in *;
      [destruct timer as [[=]|bounds] .. |].
    + cbn; split; [lia|right; lia].
    + destruct (detectBlink _ _) as [[[|] h]|]; cbn [bind tryCatch];
        cbn; rewrite ?stage, ?Htimer; cbn; split; try lia; right; lia.
    + destruct (detectHeadTurn _) as [[|]|]; cbn [bind tryCatch];
        cbn; rewrite ?stage, ?Htimer; cbn; split; try lia; right; lia.
    + destruct (detectSmile _) as [[|]|]; cbn [bind tryCatch];
        cbn; rewrite ?stage, ?Htimer; cbn; split; try lia;
        (now right) || (right; lia).
    + cbn. rewrite stage, Htimer. cbn. split; [lia|now left].
Qed.

Lemma run_paced lo hi events : forall s,
  0 < lo -> lo <= hi -> clockWithin lo hi events ->
  paced lo hi s -> paced lo hi (run s events).
Proof.
  induction events as [|e rest IH]; intros s positive ordered clock inv;
    [exact inv|].
  inversion clock as [|? ? here later]; subst.
  apply (IH (step s e)); auto. now apply step_paced.
Qed.

(** X1: a session whose frames all carry clock readings between lo and
    hi (lo positive) cannot be further than (hi - lo) / 500 stages along;
    in particular it cannot be complete if the readings span less than
    2000ms. *)
Theorem sequencer_pace (lo hi : Z) (events : list event) :
  0 < lo -> lo <= hi -> clockWithin lo hi events ->
  500 * rank (currentAction (run initial events)) <= hi - lo
  /\ (hi - lo < 2000 -> currentAction (run initial events) <> complete).
Proof.
  intros positive ordered clock.
  assert (inv : paced lo hi (run initial events)).
  { apply run_paced; auto. split; cbn; [lia|now left]. }
  destruct inv as [spread _]. split; [exact spread|].
  intros short done. rewrite done in spread. cbn in spread. lia.
Qed.

(** [sequencer_pace] on three frames 600ms apart. *)
Lemma sequencer_pace_witness :
  let events := [Frame 1000 (Some Samples.narrowEyes);
                 Frame 1600 (Some Samples.narrowEyes);
                 Frame 2200 (Some Samples.narrowEyes)] in
  500 * rank (currentAction (run initial events)) <= 1200
  /\ currentAction (run initial events) <> complete.
Proof.
  intros events.
  destruct (sequencer_pace 1000 2200 events) as [spread short];
    [lia|lia|repeat constructor; lia|].
  split; [exact spread|apply short; lia].
Defined.

Lemma step_flagged s e : flagged s -> flagged (step s e).
Proof.
  intros (Hblink & Hturn & Hsmile).
  destruct e as [currentTime lm|]; [|repeat split].
  cbn [step]. unfold checkLivenessAction, flagged in *.
  destruct lm as [l|]; [|auto].
  destruct (unset (actionStartTime s)); [auto|].
  destruct (_ <? 500); [auto|].
  destruct (currentAction s) eqn:stage; cbn [bind tryCatch rank] in *.
  - cbn. auto.
  - destruct (detectBlink _ _) as [[[|] h]|]; cbn [bind tryCatch];
      cbn; rewrite ?stage; cbn; auto.
  - destruct (detectHeadTurn _) as [[|]|]; cbn [bind tryCatch];
      cbn; rewrite ?stage; cbn; auto.
  - destruct (detectSmile _) as [[|]|]; cbn [bind tryCatch];
      cbn; rewrite ?stage; cbn; auto.
  - cbn. rewrite stage. auto.
Qed.

Lemma run_flagged events : forall s, flagged s -> flagged (run s events).
Proof.
  induction events as [|e rest IH]; intros s inv; [exact inv|].
  apply (IH (step s e)). now apply step_flagged.
Qed.

(** X2: along every session the three detection flags tell the stage:
    blinkDetected holds exactly from head_turn on, headTurnDetected from
    smile on, smileDetected in complete; so the session is complete
    exactly when all three flags are set. *)
Theorem flags_follow_stage (events : list event) :
  let s := run initial events in
  blinkDetected s = (2 <=? rank (currentAction s))
  /\ headTurnDetected s = (3 <=? rank (currentAction s))
  /\ smileDetected s = (4 <=? rank (currentAction s))
  /\ (currentAction s = complete
      <-> blinkDetected s && headTurnDetected s && smileDetected s = true).
Proof.
  intros s.
  destruct (run_flagged events initial) as (Hblink & Hturn & Hsmile);
    [repeat split|]. fold s in Hblink, Hturn, Hsmile.
  repeat (split; [assumption|]).
  rewrite Hblink, Hturn, Hsmile.
  destruct (currentAction s); cbn; split; intros; congruence.
Qed.

(** X3: frames that cannot move the sequencer leave its whole state as
    it is, however many they are: frames without landmarks in any state,
    and, once the dwell timer is set, any mix of frames without landmarks
    and frames earlier than 500ms after the timer. *)
Theorem idle_frames (s : state) :
  (forall times,
      run s (map (fun currentTime => Frame currentTime None) times) = s)
  /\ (forall started events,
         actionStartTime s = Some started ->
         started <> 0 ->
         Forall (fun e => match e with
                          | Frame currentTime lm =>
                              lm = None \/ currentTime - started < 500
                          | Reset => False
                          end) events ->
         run s events = s).
Proof.
  split.
  - intros times. induction times as [|t rest IH]; [reflexivity|exact IH].
  - intros started events timer nonzero idle.
    induction idle as [|e rest here later IH]; [reflexivity|].
    cbn [run fold_left]. fold (run (step s e) rest).
    assert (still : step s e = s); [|now rewrite still].
    destruct e as [currentTime lm|]; [|now destruct here].
    cbn [step]. unfold checkLivenessAction.
    destruct lm as [l|]; [|reflexivity].
    destruct here as [[=]|early].
    rewrite timer. cbn [unset].
    destruct (Z.eqb_spec started 0); [contradiction|].
    destruct (Z.ltb_spec (currentTime - started) 500); [reflexivity|lia].
Qed.

(** [idle_frames] on a session in the blink stage since 1000: a closed-eye
    face at 1200 and 1400 and a frame without a face at 5000 change
    nothing. *)
Lemma idle_frames_witness :
  run Samples.blinking
    [Frame 1200 (Some Samples.narrowEyes);
     Frame 1400 (Some Samples.narrowEyes);
     Frame 5000 None]
  = Samples.blinking.
Proof.
  apply (proj2 (idle_frames Samples.blinking) 1000);
    [reflexivity|discriminate|].
  repeat constructor; (right; lia) || (now left).
Defined.

(** X4: a reset forgets everything before it: what a session is after
    later events does not depend on the state or the events before the
    reset. *)
Theorem reset_forgets (s : state) (before later : list event) :
  run s (before ++ Reset :: later) = run initial later.
Proof.
  unfold run. rewrite fold_left_app. reflexivity.
Qed.

Lemma point_found (lm : landmarks) (idx : nat) :
  (idx < List.length lm)%nat -> exists p, point lm idx = Normal p.
Proof.
  intros inside. unfold point.
  destruct (nth_error lm idx) as [p|] eqn:found; [now exists p|].
  apply nth_error_None in found. lia.
Qed.

Lemma point_missing (lm : landmarks) (idx : nat) :
  (List.length lm <= idx)%nat -> exists message, point lm idx = Throw message.
Proof.
  intros outside. unfold point.
  apply nth_error_None in outside. rewrite outside. eauto.
Qed.

(** Rewrites the landmark reads of a detector that are inside the array. *)
Ltac found lm :=
  repeat match goal with
         | |- context [point lm ?i] =>
             let p := fresh "p" in
             let Hp := fresh "Hp" in
             destruct (point_found lm i) as [p Hp];
             [unfold LEFT_EYE_TOP, LEFT_EYE_BOTTOM, LEFT_EYE_LEFT,
                LEFT_EYE_RIGHT, RIGHT_EYE_TOP, RIGHT_EYE_BOTTOM,
                RIGHT_EYE_LEFT, RIGHT_EYE_RIGHT, NOSE_TIP, LEFT_EAR,
                RIGHT_EAR, MOUTH_LEFT, MOUTH_RIGHT, MOUTH_TOP, MOUTH_BOTTOM;
              lia
             |rewrite Hp; cbn [bind]]
         end.

(** X5: on a landmark array with more than 454 entries (the face mesh
    delivers 468 or 478) no detector throws and checkLivenessAction
    returns normally in every state; on an array too short for a
    detector (at most 386 entries for the blink, 454 for the head turn,
    291 for the smile) that detector throws. *)
Theorem detectors_total (lm : landmarks) :
  ((454 < List.length lm)%nat ->
   (forall history, exists r, detectBlink (Some lm) history = Normal r)
   /\ (exists r, detectHeadTurn (Some lm) = Normal r)
   /\ (exists r, detectSmile (Some lm) = Normal r)
   /\ (forall currentTime s,
          exists s', checkLivenessAction currentTime (Some lm) s = Normal s'))
  /\ ((List.length lm <= 386)%nat ->
      forall history,
        exists message, detectBlink (Some lm) history = Throw message)
  /\ ((List.length lm <= 454)%nat ->
      exists message, detectHeadTurn (Some lm) = Throw message)
  /\ ((List.length lm <= 291)%nat ->
      exists message, detectSmile (Some lm) = Throw message).
Proof.
  split; [|split; [|split]].
  - intros full.
    assert (Hblink : forall history,
               exists r, detectBlink (Some lm) history = Normal r).
    { intros history. unfold detectBlink, calculateEyeAspectRatio.
      found lm. eauto. }
    assert (Hturn : exists r, detectHeadTurn (Some lm) = Normal r).
    { unfold detectHeadTurn. found lm. eauto. }
    assert (Hsmile : exists r, detectSmile (Some lm) = Normal r).
    { unfold detectSmile. found lm. eauto. }
    repeat (split; [assumption|]).
    intros currentTime s. unfold checkLivenessAction.
    destruct (unset _); [eauto|]. destruct (_ <? 500); [eauto|].
    destruct (currentAction s); cbn [bind]; eauto.
    + destruct (Hblink (blinkHistory s)) as [[[|] h] ->]; cbn [bind]; eauto.
    + destruct Hturn as [[|] ->]; cbn [bind]; eauto.
    + destruct Hsmile as [[|] ->]; cbn [bind]; eauto.
  - intros short history. unfold detectBlink, calculateEyeAspectRatio.
    destruct (point lm LEFT_EYE_TOP); cbn [bind]; eauto.
    destruct (point lm LEFT_EYE_BOTTOM); cbn [bind]; eauto.
    destruct (point lm LEFT_EYE_LEFT); cbn [bind]; eauto.
    destruct (point lm LEFT_EYE_RIGHT); cbn [bind]; eauto.
    destruct (point_missing lm RIGHT_EYE_TOP) as [message ->];
      [exact short|]. cbn [bind]. eauto.
  - intros short. unfold detectHeadTurn.
    destruct (point lm NOSE_TIP); cbn [bind]; eauto.
    destruct (point lm LEFT_EAR); cbn [bind]; eauto.
    destruct (point_missing lm RIGHT_EAR) as [message ->];
      [exact short|]. cbn [bind]. eauto.
  - intros short. unfold detectSmile.
    destruct (point lm MOUTH_LEFT); cbn [bind]; eauto.
    destruct (point_missing lm MOUTH_RIGHT) as [message ->];
      [exact short|]. cbn [bind]. eauto.
Qed.

(** [detectors_total] on a full frame and on one cut short at 100
    landmarks. *)
Lemma detectors_total_witness :
  (exists s',
      checkLivenessAction 1600 (Some Samples.narrowEyes) Samples.blinking
      = Normal s')
  /\ (exists message,
         detectBlink (Some Samples.truncated) [] = Throw message).
Proof.
  split.
  - apply (proj1 (detectors_total Samples.narrowEyes)).
    vm_compute. lia.
  - apply (proj1 (proj2 (detectors_total Samples.truncated))).
    vm_compute. lia.
Defined.

End SessionFacts.

(** * Rolling histories *)

Section WindowFacts.

Import JS Checks Invariants.

Lemma tl_skipn {A} (n : nat) (l : list A) : tl (skipn n l) = skipn (S n) l.
Proof.
  revert l. induction n as [|n IH]; intros [|a l]; cbn; auto.
Qed.

(** Pushing onto the last [k] elements and dropping the head when that
    makes more than [k] gives the last [k] elements of the longer list. *)
Lemma window_push {A} (k : nat) (l : list A) (v : A) :
  1 <= k ->
  (if k <? List.length (lastn k l ++ [v])
   then tl (lastn k l ++ [v]) else lastn k l ++ [v])
  = lastn k (l ++ [v]).
Proof.
  intros positive. unfold lastn.
  rewrite !length_app, length_skipn. cbn [List.length].
  destruct (Nat.ltb_spec k (List.length l - (List.length l - k) + 1))
    as [full|room].
  - assert (enough : k <= List.length l) by lia.
    rewrite skipn_app.
    replace (List.length l + 1 - k - List.length l) with 0 by lia.
    cbn [skipn].
    replace (List.length l + 1 - k) with (S (List.length l - k)) by lia.
    rewrite <- tl_skipn.
    destruct (skipn (List.length l - k) l) as [|a rest] eqn:window;
      [|reflexivity].
    apply (f_equal (@List.length A)) in window.
    rewrite length_skipn in window. cbn in window. lia.
  - replace (List.length l - k) with 0 by lia.
    replace (List.length l + 1 - k) with 0 by lia.
    reflexivity.
Qed.

Lemma lastn_all {A} (k : nat) (l : list A) :
  List.length l <= k -> lastn k l = l.
Proof.
  intros short. unfold lastn.
  replace (List.length l - k) with 0 by lia. reflexivity.
Qed.

Lemma lastn_length {A} (k : nat) (l : list A) : List.length (lastn k l) <= k.
Proof. unfold lastn. rewrite length_skipn. lia. Qed.

Lemma pushBlink_window (l : list number) (values : list number) :
  fold_left pushBlink values (lastn 10 l) = lastn 10 (l ++ values).
Proof.
  revert l. induction values as [|v rest IH]; intros l.
  - now rewrite app_nil_r.
  - cbn [fold_left].
    replace (pushBlink (lastn 10 l) v) with (lastn 10 (l ++ [v]))
      by (symmetry; apply (window_push 10); lia).
    rewrite IH, <- app_assoc. reflexivity.
Qed.

(** X6: the blink history is a rolling window: after any number of pushes
    onto a history of at most 10 entries it holds exactly the last 10 of
    all the values, oldest first. *)
Theorem blink_window (history values : list number) :
  List.length history <= 10 ->
  fold_left pushBlink values history = lastn 10 (history ++ values).
Proof.
  intros short. rewrite <- (lastn_all 10 history short) at 1.
  apply pushBlink_window.
Qed.

(** [blink_window] on twelve pushes onto an empty history. *)
Lemma blink_window_witness :
  fold_left pushBlink
    [1; 2; 3; 4; 5; 6; 7; 8; 9; 10; 11; 12]%float []
  = [3; 4; 5; 6; 7; 8; 9; 10; 11; 12]%float.
Proof.
  rewrite (blink_window [] [1; 2; 3; 4; 5; 6; 7; 8; 9; 10; 11; 12]%float);
    [reflexivity|cbn; lia].
Defined.

End WindowFacts.

(** * Further properties of the detection hook *)

Section AttemptFacts.

Import JS Detection Attempts Invariants.
Context {B : Backend}.
Local Open Scope float_scope.

Lemma statsLoop_flags (values : list number) : forall mn mx,
  hasInvalidValues (statsLoop values mn mx) = negb (forallb isFinite values).
Proof.
  induction values as [|v rest IH]; intros mn mx; [reflexivity|].
  cbn [statsLoop forallb]. unfold isNaN, isFinite at 1 2.
  destruct (is_nan v), (is_infinity v); cbn; auto.
Qed.

(** X7: validateFace accepts a face tensor exactly when it is present,
    has rank 3, its data can be read and every value is finite (neither
    NaN nor an infinity); what it accepts is the tensor it was given. *)
Theorem validateFace_accepts (faceImageTensor : option tensor) (t : tensor) :
  validateFace faceImageTensor = Normal t
  <-> faceImageTensor = Some t
      /\ List.length (shape t) = 3%nat
      /\ exists values,
           data t = Normal values /\ forallb isFinite values = true.
Proof.
  unfold validateFace, getTensorStats. split.
  - destruct faceImageTensor as [t'|]; [|discriminate].
    destruct (Nat.eqb_spec (List.length (shape t')) 3) as [rank3|];
      [|discriminate]. cbn [negb].
    destruct (data t') as [values|] eqn:read; cbn [bind]; [|discriminate].
    rewrite statsLoop_flags.
    destruct (forallb isFinite values) eqn:finite; cbn; [|discriminate].
    intros [= <-]. eauto.
  - intros (-> & rank3 & values & read & finite).
    rewrite rank3, read. cbn [Nat.eqb negb bind].
    rewrite statsLoop_flags, finite. reflexivity.
Qed.

(** X8: what one call of detectLiveness does to the hook.  It never
    touches the model; a verdict is mirrored in the isLive and confidence
    cells and leaves an earlier error message standing; a failure (null)
    records the error and keeps the cells; without a loaded model the
    call returns undefined and only the error changes. *)
Theorem attempt_effect (faceImageTensor : option tensor) (s : state) :
  let '(r, s') := detectLiveness faceImageTensor s in
  modelRef s' = modelRef s
  /\ isModelLoaded s' = isModelLoaded s
  /\ match r with
     | Result v =>
         isLive s' = Some (Verdict.isLive v)
         /\ confidence s' = Verdict.confidence v
         /\ error s' = error s
     | Null =>
         isLive s' = isLive s
         /\ confidence s' = confidence s
         /\ error s' = Some failed
     | Undefined =>
         isLive s' = isLive s
         /\ confidence s' = confidence s
         /\ error s' = Some "Model not loaded"%string
         /\ faceHistoryRef s' = faceHistoryRef s
     end.
Proof.
  unfold detectLiveness.
  destruct (modelRef s) as [m|] eqn:Hmodel;
    [|cbn; repeat split; assumption].
  destruct (isModelLoaded s) eqn:Hloaded;
    [|cbn; repeat split; assumption].
  destruct (validateFace faceImageTensor) as [face|];
    [|cbn; repeat split; assumption].
  cbv zeta. destruct (Passive.isSpoof _);
    [cbn; repeat split; assumption|].
  destruct (classify m face) as [predictionData|]; cbn [bind];
    [|cbn; repeat split; assumption].
  unfold fuse. cbv zeta.
  destruct (_ || _); cbn; repeat split; assumption.
Qed.

Lemma attempt_keeps_model (faceImageTensor : option tensor) (s : state) :
  modelRef (snd (detectLiveness faceImageTensor s)) = modelRef s
  /\ isModelLoaded (snd (detectLiveness faceImageTensor s))
     = isModelLoaded s.
Proof.
  unfold detectLiveness.
  destruct (modelRef s) as [m|] eqn:Hmodel; [|cbn; auto].
  destruct (isModelLoaded s) eqn:Hloaded; [|cbn; auto].
  destruct (validateFace faceImageTensor) as [face|]; [|cbn; auto].
  cbv zeta. destruct (Passive.isSpoof _); [cbn; auto|].
  destruct (classify m face) as [predictionData|]; cbn [bind];
    [|cbn; auto].
  unfold fuse. cbv zeta. destruct (_ || _); cbn; auto.
Qed.

Lemma attempt_history (faceImageTensor : option tensor) (s : state) m :
  modelRef s = Some m ->
  isModelLoaded s = true ->
  faceHistoryRef (snd (detectLiveness faceImageTensor s))
  = match validateFace faceImageTensor with
    | Normal face => pushFace (faceHistoryRef s) face
    | Throw _ => faceHistoryRef s
    end.
Proof.
  intros Hmodel Hloaded. unfold detectLiveness. rewrite Hmodel, Hloaded.
  destruct (validateFace faceImageTensor) as [face|]; [|reflexivity].
  cbv zeta. destruct (Passive.isSpoof _); [reflexivity|].
  destruct (classify m face) as [predictionData|]; cbn [bind];
    [|reflexivity].
  unfold fuse. cbv zeta. destruct (_ || _); reflexivity.
Qed.

Lemma after_window (faces : list (option tensor)) : forall s m l,
  modelRef s = Some m ->
  isModelLoaded s = true ->
  faceHistoryRef s = lastn 5 l ->
  faceHistoryRef (after s faces) = lastn 5 (l ++ accepted faces).
Proof.
  induction faces as [|face rest IH]; intros s m l Hmodel Hloaded Hwindow.
  - cbn. now rewrite app_nil_r.
  - cbn [after fold_left accepted flat_map].
    pose proof (attempt_keeps_model face s) as [same_model same_loaded].
    pose proof (attempt_history face s m Hmodel Hloaded) as history.
    destruct (detectLiveness face s) as [r s1]. cbn [snd] in *.
    fold (accepted rest).
    destruct (validateFace face) as [t|].
    + rewrite app_assoc.
      apply (IH s1 m); [congruence|congruence|].
      rewrite history, Hwindow. apply (window_push 5). lia.
    + cbn [app]. apply (IH s1 m); congruence.
Qed.

(** X9: with the model loaded, the crop history is a rolling window over
    the faces that passed validation: after any sequence of calls it
    holds the last 5 of them after the ones it started with, oldest
    first, whether or not the attempts then succeeded; it never holds
    more than 5. *)
Theorem history_window (s : state) (m : model)
    (faces : list (option tensor)) :
  modelRef s = Some m ->
  isModelLoaded s = true ->
  (List.length (faceHistoryRef s) <= 5)%nat ->
  faceHistoryRef (after s faces)
  = lastn 5 (faceHistoryRef s ++ accepted faces)
  /\ (List.length (faceHistoryRef (after s faces)) <= 5)%nat.
Proof.
  intros Hmodel Hloaded short.
  assert (window : faceHistoryRef (after s faces)
                   = lastn 5 (faceHistoryRef s ++ accepted faces)).
  { apply (after_window faces s m); auto.
    symmetry. now apply lastn_all. }
  split; [exact window|]. rewrite window. apply lastn_length.
Qed.

(** X10: a hook whose model is not loaded answers undefined to every
    call and, over any sequence of calls, records no face and keeps its
    isLive and confidence cells. *)
Theorem unloaded_hook (s : state) (faces : list (option tensor)) :
  modelRef s = None \/ isModelLoaded s = false ->
  (forall face, fst (detectLiveness face s) = Undefined)
  /\ faceHistoryRef (after s faces) = faceHistoryRef s
  /\ isLive (after s faces) = isLive s
  /\ confidence (after s faces) = confidence s.
Proof.
  intros unloaded. split.
  - intros face. unfold detectLiveness.
    destruct unloaded as [-> | ->]; [reflexivity|].
    now destruct (modelRef s).
  - revert s unloaded.
    induction faces as [|face rest IH]; intros s unloaded; [auto|].
    cbn [after fold_left].
    assert (call : detectLiveness face s
                   = (Undefined, setError s "Model not loaded")).
    { unfold detectLiveness. destruct unloaded as [-> | ->]; [reflexivity|].
      now destruct (modelRef s). }
    rewrite call. cbn [snd]. apply (IH (setError s "Model not loaded")).
    exact unloaded.
Qed.

(** Splits a goal about [detectSpoofing (Some t) history] into the eight
    combinations of sub-scores. *)
Ltac scores t history :=
  destruct (analyzeTexture_binary (Some t)) as [-> | ->];
  destruct (analyzeMotion_binary (Some t) history) as [-> | ->];
  destruct (analyzeFrequencyDomain_binary (Some t)) as [-> | ->].

Lemma passive_kinds t history :
  let r := detectSpoofing (Some t) history in
  (Passive.isSpoof r = true
   /\ (2 <= List.length (Passive.reasons r))%nat)
  \/ (Passive.isSpoof r = false
      /\ (Passive.confidence r = 2 / 3 \/ Passive.confidence r = 1)).
Proof.
  cbv zeta. unfold detectSpoofing.
  scores t history; vm_compute; auto 6.
Qed.

(** X11: detectLiveness returns two kinds of verdict.  The spoof path:
    no passiveScore, isLive false and at least two reasons.  The
    classifier path: a passiveScore of 2/3 or 1 and an empty list of
    reasons, whatever the classifier said.  So a live verdict always
    rests on at least two passed analyses, and a verdict with reasons is
    never live. *)
Theorem verdict_kinds (faceImageTensor : option tensor) (s s' : state)
    (v : Verdict.t) :
  detectLiveness faceImageTensor s = (Result v, s') ->
  (Verdict.passiveScore v = None
   /\ Verdict.isLive v = false
   /\ (2 <= List.length (Verdict.spoofReasons v))%nat)
  \/ (exists c,
         Verdict.passiveScore v = Some c
         /\ (c = 2 / 3 \/ c = 1)
         /\ Verdict.spoofReasons v = []).
Proof.
  unfold detectLiveness.
  destruct (modelRef s) as [m|]; [|discriminate].
  destruct (isModelLoaded s); [|discriminate].
  destruct (validateFace faceImageTensor) as [face|]; [|discriminate].
  cbv zeta. set (history := removelast _).
  pose proof (passive_kinds face history) as kinds. cbv zeta in kinds.
  destruct (detectSpoofing (Some face) history) as [spoof c reasons].
  cbn [Passive.isSpoof Passive.confidence Passive.reasons] in *.
  destruct kinds as [[-> many]|[-> score]].
  - intros [= <- _]. left. auto.
  - destruct (classify m face) as [predictionData|]; cbn [bind];
      [|discriminate].
    unfold fuse. cbv zeta. destruct (_ || _); [discriminate|].
    intros [= <- _]. right. exists c. auto.
Qed.

Lemma few_previous (history : list tensor) (face : tensor) :
  (List.length history < 3)%nat ->
  analyzeMotion (Some face) (removelast (pushFace history face)) = 0.
Proof.
  intros few.
  rewrite (proj1 (previous_faces history face)) by lia.
  unfold analyzeMotion.
  destruct (Nat.ltb_spec (List.length history) 3); [reflexivity|lia].
Qed.

(** X12: while the hook has recorded fewer than three crops (its first
    three validated attempts) the motion analysis cannot pass: a verdict
    of the spoof path lists "Insufficient motion", and a verdict of the
    classifier path has passiveScore 2/3, never 1. *)
Theorem early_attempts (faceImageTensor : option tensor) (s s' : state)
    (v : Verdict.t) :
  (List.length (faceHistoryRef s) < 3)%nat ->
  detectLiveness faceImageTensor s = (Result v, s') ->
  (Verdict.passiveScore v = None
   /\ In "Insufficient motion"%string (Verdict.spoofReasons v))
  \/ Verdict.passiveScore v = Some (2 / 3).
Proof.
  intros few. unfold detectLiveness.
  destruct (modelRef s) as [m|]; [|discriminate].
  destruct (isModelLoaded s); [|discriminate].
  destruct (validateFace faceImageTensor) as [face|]; [|discriminate].
  cbv zeta. cbn [faceHistoryRef withHistory].
  pose proof (few_previous (faceHistoryRef s) face few) as still.
  set (history := removelast _) in *.
  assert (kinds :
    let r := detectSpoofing (Some face) history in
    (Passive.isSpoof r = true
     /\ In "Insufficient motion"%string (Passive.reasons r))
    \/ (Passive.isSpoof r = false /\ Passive.confidence r = 2 / 3)).
  { cbv zeta. unfold detectSpoofing. rewrite still.
    destruct (analyzeTexture_binary (Some face)) as [-> | ->];
      destruct (analyzeFrequencyDomain_binary (Some face)) as [-> | ->];
      vm_compute; auto 6. }
  cbv zeta in kinds.
  destruct (detectSpoofing (Some face) history) as [spoof c reasons].
  cbn [Passive.isSpoof Passive.confidence Passive.reasons] in *.
  destruct kinds as [[-> listed]|[-> score]].
  - intros [= <- _]. left. auto.
  - destruct (classify m face) as [predictionData|]; cbn [bind];
      [|discriminate].
    unfold fuse. cbv zeta. destruct (_ || _); [discriminate|].
    intros [= <- _]. right. cbn. now rewrite score.
Qed.

End AttemptFacts.

(** * Properties of the face crop and of the verification run *)

Section ExtractionFacts.

Import JS Checks Detection Extraction Detector Invariants.
Context {B : Backend} {D : Dom}.
Local Open Scope float_scope.

(** X14: extractFaceFromVideo yields a crop exactly when there is a
    video, a non-empty landmark list, the canvas could be drawn and read
    for the padded bounding box scaled to the video size, and the tensor
    read back is 224 by 224; in every other case, a throw included, it
    yields null. *)
Theorem extract_crop (videoElement : option video) (lm : option landmarks)
    (t : tensor) :
  extractFaceFromVideo videoElement lm = Some t
  <-> exists v p ps rest,
        videoElement = Some v
        /\ lm = Some (p :: ps)
        /\ (let b := padded (boundingBox (p :: ps)) in
            drawAndRead v
              (minX b * videoWidth v) (minY b * videoHeight v)
              ((maxX b - minX b) * videoWidth v)
              ((maxY b - minY b) * videoHeight v)
            = Normal t)
        /\ shape t = 224%nat :: 224%nat :: rest.
Proof.
  unfold extractFaceFromVideo. split.
  - destruct videoElement as [v|]; [|discriminate].
    destruct lm as [[|p ps]|]; [discriminate| |discriminate].
    cbv zeta.
    destruct (drawAndRead v _ _ _ _) as [t'|] eqn:drawn;
      cbn [bind tryCatch]; [|discriminate].
    unfold wrongDimensions.
    destruct (shape t') as [|h [|w rest]] eqn:dimensions;
      cbn [tryCatch]; try discriminate.
    destruct (Nat.eqb_spec h 224) as [->|]; cbn [negb orb tryCatch];
      [|discriminate].
    destruct (Nat.eqb_spec w 224) as [->|]; cbn [negb tryCatch];
      [|discriminate].
    intros [= <-]. exists v, p, ps, rest. auto.
  - intros (v & p & ps & rest & -> & -> & drawn & dimensions).
    cbv zeta in *. rewrite drawn. cbn [bind].
    unfold wrongDimensions. rewrite dimensions. reflexivity.
Qed.

(** X15: what a run of processLivenessDetection leaves behind.  While a
    run is in progress, or without landmarks or video, nothing changes.
    Otherwise isProcessing ends false; the stored result changes only
    when detectLiveness returned a verdict for the extracted crop, and
    then it carries that verdict's isLive and confidence; when no crop
    could be extracted the detection hook is not called. *)
Theorem process_outcome (now : string) (faceLandmarks : option landmarks)
    (videoRef : option video) (c : component) (s : Detection.state) :
  let '(c', s') :=
    processLivenessDetection now faceLandmarks videoRef c s in
  (faceLandmarks = None \/ videoRef = None \/ isProcessing c = true ->
   c' = c /\ s' = s)
  /\ (faceLandmarks <> None -> videoRef <> None -> isProcessing c = false ->
      isProcessing c' = false
      /\ match extractFaceFromVideo videoRef faceLandmarks with
         | None => detectionResult c' = detectionResult c /\ s' = s
         | Some faceTensor =>
             s' = snd (detectLiveness (Some faceTensor) s)
             /\ match fst (detectLiveness (Some faceTensor) s) with
                | Result v =>
                    detectionResult c'
                    = Some {| Detector.isLive := Verdict.isLive v;
                              Detector.confidence := Verdict.confidence v;
                              timestamp := now |}
                | _ => detectionResult c' = detectionResult c
                end
         end).
Proof.
  unfold processLivenessDetection.
  destruct faceLandmarks as [lm|], videoRef as [v|];
    destruct (isProcessing c) eqn:busy;
    try (split; [auto|intros; congruence]).
  destruct (extractFaceFromVideo (Some v) (Some lm)) as [faceTensor|].
  - destruct (detectLiveness (Some faceTensor) s) as [[| |verdict] s1];
      cbn; (split; [intros [|[|]]; discriminate|auto]).
  - split; [intros [|[|]]; discriminate|auto].
Qed.

(** X16: the verification is run by the auto-complete effect only when
    no result is stored and the sequencer is complete; in a session that
    means only after the blink, the head turn and the smile have all
    been detected.  Otherwise the effect leaves the component and the
    detection hook as they are. *)
Theorem autoComplete_gate (now : string) (events : list event)
    (faceLandmarks : option landmarks) (videoRef : option video)
    (c : component) (s : Detection.state) :
  let checks := run Checks.initial events in
  (autoComplete now checks faceLandmarks videoRef c s <> (c, s) ->
   detectionResult c = None
   /\ currentAction checks = complete
   /\ blinkDetected checks = true
   /\ headTurnDetected checks = true
   /\ smileDetected checks = true)
  /\ (detectionResult c <> None \/ currentAction checks <> complete ->
      autoComplete now checks faceLandmarks videoRef c s = (c, s)).
Proof.
  intros checks.
  destruct (run_flagged events Checks.initial) as (Hblink & Hturn & Hsmile);
    [repeat split|]. fold checks in Hblink, Hturn, Hsmile.
  unfold autoComplete. split.
  - intros changed.
    destruct (currentAction checks) eqn:stage;
      try (now destruct changed);
      try (destruct (detectionResult c); now destruct changed).
    destruct (detectionResult c); [now destruct changed|].
    rewrite Hblink, Hturn, Hsmile. cbn. auto.
  - intros [stored|unfinished].
    + destruct (currentAction checks); try reflexivity.
      destruct (detectionResult c); [reflexivity|now destruct stored].
    + destruct (currentAction checks); try reflexivity.
      now destruct unfinished.
Qed.

End ExtractionFacts.

(** * The further properties on concrete inputs *)

Section FurtherOnTheDouble.

Import JS Checks Detection Attempts Extraction Detector Invariants.
Import Double DomDouble.
Local Open Scope float_scope.

(** [validateFace_accepts] on a crop of finite values. *)
Lemma validateFace_accepts_witness :
  validateFace (Some halfFace) = Normal halfFace.
Proof.
  apply (proj2 (validateFace_accepts (B := backend) (Some halfFace)
                  halfFace)).
  split; [reflexivity|]. split; [reflexivity|].
  exists (vals halfFace). split; [reflexivity|vm_compute; reflexivity].
Defined.

(** [history_window] on seven attempts, one of them without a face: the
    history keeps the last five accepted crops although the classifier
    never answers. *)
Lemma history_window_witness :
  faceHistoryRef
    (after (loaded stalling [])
       [Some dark; Some bright; None; Some halfFace; Some flatFace;
        Some dark; Some bright])
  = [bright; halfFace; flatFace; dark; bright].
Proof.
  refine (eq_trans
    (proj1 (history_window (B := backend) (loaded stalling []) stalling
       [Some dark; Some bright; None; Some halfFace; Some flatFace;
        Some dark; Some bright] eq_refl eq_refl _)) _).
  - cbn. lia.
  - vm_compute. reflexivity.
Defined.

(** [unloaded_hook] on the hook as created. *)
Lemma unloaded_hook_witness :
  fst (detectLiveness (Some halfFace) Detection.initial) = Undefined
  /\ faceHistoryRef (after Detection.initial [Some halfFace; Some dark])
     = [].
Proof.
  destruct (unloaded_hook (B := backend) Detection.initial
              [Some halfFace; Some dark] (or_introl eq_refl))
    as (undefined & history & _).
  split; [apply undefined|exact history].
Defined.

(** [verdict_kinds] on a verdict of the classifier path. *)
Lemma verdict_kinds_witness :
  exists v s',
    detectLiveness (Some halfFace) (loaded (answering 0.9 0.1) [])
    = (Result v, s')
    /\ Verdict.isLive v = false
    /\ ((Verdict.passiveScore v = None
         /\ Verdict.isLive v = false
         /\ (2 <= List.length (Verdict.spoofReasons v))%nat)
        \/ (exists c,
               Verdict.passiveScore v = Some c
               /\ (c = 2 / 3 \/ c = 1)
               /\ Verdict.spoofReasons v = [])).
Proof.
  eexists. eexists.
  split; [vm_compute; reflexivity|].
  split; [reflexivity|].
  eapply (verdict_kinds (B := backend) (Some halfFace)
            (loaded (answering 0.9 0.1) [])).
  vm_compute. reflexivity.
Defined.

(** [early_attempts] on a first attempt. *)
Lemma early_attempts_witness :
  exists v s',
    detectLiveness (Some halfFace) (loaded (answering 0.1 0.85) [])
    = (Result v, s')
    /\ ((Verdict.passiveScore v = None
         /\ In "Insufficient motion"%string (Verdict.spoofReasons v))
        \/ Verdict.passiveScore v = Some (2 / 3)).
Proof.
  eexists. eexists.
  split; [vm_compute; reflexivity|].
  eapply (early_attempts (B := backend) (Some halfFace)
            (loaded (answering 0.1 0.85) [])).
  - cbn. lia.
  - vm_compute. reflexivity.
Defined.

(** [extract_crop] on the camera of the double. *)
Lemma extract_crop_witness :
  extractFaceFromVideo (Some camera) (Some Samples.narrowEyes) = Some frame.
Proof.
  apply (proj2 (extract_crop (B := backend) (D := dom)
                  (Some camera) (Some Samples.narrowEyes) frame)).
  exists camera, {| x := 0; y := 0 |}, (tl Samples.narrowEyes), [3%nat].
  repeat split.
Defined.

(** [process_outcome] when the canvas cannot be read: the run ends with
    isProcessing false, no result and an untouched detection hook. *)
Lemma process_outcome_witness :
  processLivenessDetection "2024-01-01T00:00:00.000Z"
    (Some Samples.narrowEyes) (Some blocked)
    {| detectionResult := None; isProcessing := false |}
    (loaded stalling [])
  = ({| detectionResult := None; isProcessing := false |},
     loaded stalling []).
Proof.
  pose proof (process_outcome (B := backend) (D := dom)
    "2024-01-01T00:00:00.000Z" (Some Samples.narrowEyes) (Some blocked)
    {| detectionResult := None; isProcessing := false |}
    (loaded stalling [])) as outcome.
  destruct (processLivenessDetection _ _ _ _ _) as [c' s'].
  destruct outcome as [_ ran].
  destruct ran as (idle & kept & untouched);
    [discriminate|discriminate|reflexivity|].
  destruct c' as [result busy]. cbn in idle, kept.
  now rewrite idle, kept, untouched.
Defined.

(** [autoComplete_gate] on a session still in its first stage. *)
Lemma autoComplete_gate_witness :
  autoComplete "2024-01-01T00:00:00.000Z"
    (run Checks.initial [Frame 1000 (Some Samples.narrowEyes)])
    (Some Samples.narrowEyes) (Some camera)
    {| detectionResult := None; isProcessing := false |}
    (loaded stalling [])
  = ({| detectionResult := None; isProcessing := false |},
     loaded stalling []).
Proof.
  apply (proj2 (autoComplete_gate (B := backend) (D := dom)
    "2024-01-01T00:00:00.000Z" [Frame 1000 (Some Samples.narrowEyes)]
    (Some Samples.narrowEyes) (Some camera)
    {| detectionResult := None; isProcessing := false |}
    (loaded stalling []))).
  right. discriminate.
Defined.

End FurtherOnTheDouble.

(** * The order of binary64 values

    The comparisons of primitive floats are specified by [SFcompare] on
    their decoded form; these lemmas recover from it what the proofs below
    need: away from NaN, [<=?] is a total preorder and [<?] its strict
    part. *)

Section OrderFacts.

Local Open Scope float_scope.

Lemma SFcompare_antisym x y c :
  SFcompare x y = Some c -> SFcompare y x = Some (CompOpp c).
Proof.
  destruct x as [sx|sx| |sx mx ex], y as [sy|sy| |sy my ey]; cbn;
    try discriminate; intros [= <-];
    try (destruct sx); try (destruct sy); try reflexivity;
    rewrite (Z.compare_antisym ex ey), !Pos.compare_cont_spec,
      (Pos.compare_antisym mx my); cbn;
    destruct (ex ?= ey)%Z; cbn; try reflexivity;
    destruct (mx ?= my)%positive; reflexivity.
Qed.

Lemma SFcompare_refl x : x <> S754_nan -> SFcompare x x = Some Eq.
Proof.
  destruct x as [s|s| |s m e]; cbn; try congruence; intros _.
  - now destruct s.
  - rewrite Z.compare_refl, Pos.compare_cont_spec, Pos.compare_refl.
    now destruct s.
Qed.

Lemma SFcompare_defined x y :
  x <> S754_nan -> y <> S754_nan -> exists c, SFcompare x y = Some c.
Proof.
  destruct x as [sx|sx| |sx mx ex], y as [sy|sy| |sy my ey]; cbn;
    try congruence; eauto.
Qed.

Lemma SFleb_trans x y z :
  SFleb x y = true -> SFleb y z = true -> SFleb x z = true.
Proof.
  unfold SFleb.
  destruct x as [sx|sx| |sx mx ex], y as [sy|sy| |sy my ey],
    z as [sz|sz| |sz mz ez]; cbn; try discriminate; try reflexivity;
    try (destruct sx; try discriminate; try reflexivity);
    try (destruct sy; try discriminate; try reflexivity);
    try (destruct sz; try discriminate; try reflexivity);
    rewrite ?Pos.compare_cont_spec; cbn;
    repeat match goal with
           | |- context [(?a ?= ?b)%Z] => destruct (Z.compare_spec a b)
           | |- context [(?a ?= ?b)%positive] =>
               destruct (Pos.compare_spec a b)
           end; cbn; try discriminate; try reflexivity; intros; lia.
Qed.

Lemma not_nan_decoded a : is_nan a = false <-> Prim2SF a <> S754_nan.
Proof.
  unfold is_nan. rewrite FloatAxioms.eqb_spec. unfold SFeqb. split.
  - intros defined decoded. rewrite decoded in defined. discriminate.
  - intros decoded. now rewrite (SFcompare_refl _ decoded).
Qed.

Lemma leb_refl a : is_nan a = false -> (a <=? a) = true.
Proof.
  intros defined. apply not_nan_decoded in defined.
  rewrite FloatAxioms.leb_spec. unfold SFleb.
  now rewrite (SFcompare_refl _ defined).
Qed.

Lemma ltb_leb a b : (a <? b) = true -> (a <=? b) = true.
Proof.
  rewrite FloatAxioms.ltb_spec, FloatAxioms.leb_spec. unfold SFltb, SFleb.
  now destruct (SFcompare _ _) as [[| |]|].
Qed.

Lemma ltb_asym a b : (a <? b) = true -> (b <? a) = false.
Proof.
  rewrite !FloatAxioms.ltb_spec. unfold SFltb.
  destruct (SFcompare (Prim2SF a) (Prim2SF b)) as [c|] eqn:cmp;
    [|discriminate].
  rewrite (SFcompare_antisym _ _ _ cmp). now destruct c.
Qed.

Lemma leb_trans a b c :
  (a <=? b) = true -> (b <=? c) = true -> (a <=? c) = true.
Proof. rewrite !FloatAxioms.leb_spec. apply SFleb_trans. Qed.

Lemma leb_defined a b :
  (a <=? b) = true -> is_nan a = false /\ is_nan b = false.
Proof.
  rewrite FloatAxioms.leb_spec. unfold SFleb. intros below.
  split; apply not_nan_decoded; intros decoded; rewrite decoded in below;
    [discriminate below|].
  destruct (Prim2SF a); discriminate below.
Qed.

(** Two values that are not NaN and neither of which is below the other
    are equal as numbers. *)
Lemma neither_below a b :
  is_nan a = false -> is_nan b = false ->
  (a <? b) = false -> (b <? a) = false ->
  (a =? b) = true /\ (a <=? b) = true /\ (b <=? a) = true.
Proof.
  intros Ha Hb. apply not_nan_decoded in Ha, Hb.
  rewrite !FloatAxioms.ltb_spec, !FloatAxioms.leb_spec,
    FloatAxioms.eqb_spec.
  unfold SFltb, SFleb, SFeqb.
  destruct (SFcompare_defined _ _ Ha Hb) as [c cmp].
  rewrite cmp, (SFcompare_antisym _ _ _ cmp).
  now destruct c.
Qed.

(** [Math.min] and [Math.max] away from NaN. *)
Lemma min_below a b :
  is_nan a = false -> is_nan b = false ->
  is_nan (JS.min a b) = false
  /\ (JS.min a b <=? a) = true /\ (JS.min a b <=? b) = true.
Proof.
  intros Ha Hb. unfold JS.min. rewrite Ha, Hb. cbn [orb].
  destruct (a <? b) eqn:ab.
  - auto using leb_refl, ltb_leb.
  - destruct (b <? a) eqn:ba.
    + auto using leb_refl, ltb_leb.
    + destruct (neither_below a b Ha Hb ab ba) as (_ & le & ge).
      destruct (get_sign a); auto using leb_refl.
Qed.

Lemma max_above a b :
  is_nan a = false -> is_nan b = false ->
  is_nan (JS.max a b) = false
  /\ (a <=? JS.max a b) = true /\ (b <=? JS.max a b) = true.
Proof.
  intros Ha Hb. unfold JS.max. rewrite Ha, Hb. cbn [orb].
  destruct (a <? b) eqn:ab.
  - auto using leb_refl, ltb_leb.
  - destruct (b <? a) eqn:ba.
    + auto using leb_refl, ltb_leb.
    + destruct (neither_below a b Ha Hb ab ba) as (_ & le & ge).
      destruct (get_sign a); auto using leb_refl.
Qed.

(** [Math.max] returns the argument that is above the other. *)
Lemma max_picks a b :
  is_nan a = false -> is_nan b = false ->
  ((b <? a) = true -> JS.max a b = a)
  /\ ((b <? a) = false ->
      JS.max a b = b \/ ((a =? b) = true /\ JS.max a b = a)).
Proof.
  intros Ha Hb. unfold JS.max. rewrite Ha, Hb. cbn [orb]. split.
  - intros ba. rewrite (ltb_asym _ _ ba), ba. reflexivity.
  - intros ba. rewrite ba. destruct (a <? b) eqn:ab; [now left|].
    destruct (neither_below a b Ha Hb ab ba) as (same & _).
    destruct (get_sign a); auto.
Qed.

End OrderFacts.

(** * Bounds computed with [Math.min] and [Math.max] *)

Section BoundFacts.

Import JS Checks Detection Extraction.
Local Open Scope float_scope.

(** X17: the padded box is clamped to the frame: unless a bound is NaN,
    its left and top are at least 0 and its right and bottom at most
    1, whatever box is padded. *)
Theorem padded_clamped (b : box) :
  (is_nan (minX (padded b)) = true \/ (0 <=? minX (padded b)) = true)
  /\ (is_nan (minY (padded b)) = true \/ (0 <=? minY (padded b)) = true)
  /\ (is_nan (maxX (padded b)) = true \/ (maxX (padded b) <=? 1) = true)
  /\ (is_nan (maxY (padded b)) = true \/ (maxY (padded b) <=? 1) = true).
Proof.
  assert (lower : forall v,
             is_nan (JS.max 0 v) = true \/ (0 <=? JS.max 0 v) = true).
  { intros v. destruct (is_nan v) eqn:Hv.
    - left. unfold JS.max. rewrite Hv, orb_true_r. reflexivity.
    - right. now apply (max_above 0 v). }
  assert (upper : forall v,
             is_nan (JS.min 1 v) = true \/ (JS.min 1 v <=? 1) = true).
  { intros v. destruct (is_nan v) eqn:Hv.
    - left. unfold JS.min. rewrite Hv, orb_true_r. reflexivity.
    - right. now apply (min_below 1 v). }
  unfold padded. cbn [minX minY maxX maxY]. auto.
Qed.

Lemma boundingBox_fold (lm : landmarks) : forall b,
  is_nan (minX b) = false -> is_nan (minY b) = false ->
  is_nan (maxX b) = false -> is_nan (maxY b) = false ->
  Forall (fun p => is_nan (x p) = false /\ is_nan (y p) = false) lm ->
  let r := fold_left
             (fun b landmark =>
                {| minX := JS.min (minX b) (x landmark);
                   minY := JS.min (minY b) (y landmark);
                   maxX := JS.max (maxX b) (x landmark);
                   maxY := JS.max (maxY b) (y landmark) |}) lm b in
  ((minX r <=? minX b) = true /\ (minY r <=? minY b) = true
   /\ (maxX b <=? maxX r) = true /\ (maxY b <=? maxY r) = true)
  /\ Forall (fun p => (minX r <=? x p) = true /\ (x p <=? maxX r) = true
                      /\ (minY r <=? y p) = true
                      /\ (y p <=? maxY r) = true) lm.
Proof.
  induction lm as [|p rest IH]; intros b Hminx Hminy Hmaxx Hmaxy defined.
  - cbn. auto 10 using leb_refl.
  - inversion defined as [|? ? [Hx Hy] later]; subst.
    destruct (min_below (minX b) (x p) Hminx Hx) as (n1 & l1 & l2).
    destruct (min_below (minY b) (y p) Hminy Hy) as (n2 & l3 & l4).
    destruct (max_above (maxX b) (x p) Hmaxx Hx) as (n3 & u1 & u2).
    destruct (max_above (maxY b) (y p) Hmaxy Hy) as (n4 & u3 & u4).
    cbn [fold_left].
    specialize (IH {| minX := JS.min (minX b) (x p);
                      minY := JS.min (minY b) (y p);
                      maxX := JS.max (maxX b) (x p);
                      maxY := JS.max (maxY b) (y p) |} n1 n2 n3 n4 later).
    cbv zeta in IH.
    cbn [minX minY maxX maxY] in IH.
    destruct IH as ((a1 & a2 & a3 & a4) & inside).
    cbv zeta. split.
    + repeat split; eauto using leb_trans.
    + constructor; [|exact inside].
      repeat split; eauto using leb_trans.
Qed.

(** X18: when no landmark coordinate is NaN, the bounding box the crop
    starts from contains every landmark: its minima are at most, and its
    maxima at least, the coordinates of each landmark. *)
Theorem boundingBox_contains (lm : landmarks) (p : landmark) :
  Forall (fun q => is_nan (x q) = false /\ is_nan (y q) = false) lm ->
  In p lm ->
  (minX (boundingBox lm) <=? x p) = true
  /\ (x p <=? maxX (boundingBox lm)) = true
  /\ (minY (boundingBox lm) <=? y p) = true
  /\ (y p <=? maxY (boundingBox lm)) = true.
Proof.
  intros defined member.
  destruct (boundingBox_fold lm
              {| minX := infinity; minY := infinity;
                 maxX := neg_infinity; maxY := neg_infinity |})
    as [_ inside]; try reflexivity; [exact defined|].
  cbv zeta in inside. rewrite Forall_forall in inside.
  exact (inside p member).
Qed.

Lemma statsLoop_bounds (values : list number) : forall mn mx,
  is_nan mn = false -> is_nan mx = false ->
  hasInvalidValues (statsLoop values mn mx) = false ->
  ((min (statsLoop values mn mx) <=? mn) = true
   /\ (mx <=? max (statsLoop values mn mx)) = true)
  /\ Forall (fun v => (min (statsLoop values mn mx) <=? v) = true
                      /\ (v <=? max (statsLoop values mn mx)) = true)
       values.
Proof.
  induction values as [|v rest IH]; intros mn mx Hmn Hmx valid.
  - cbn. auto using leb_refl.
  - cbn [statsLoop] in *. unfold isNaN, isFinite in *.
    destruct (is_nan v) eqn:Hv; [discriminate valid|].
    destruct (is_infinity v); [discriminate valid|].
    cbn [orb negb] in *.
    destruct (min_below mn v Hmn Hv) as (n1 & l1 & l2).
    destruct (max_above mx v Hmx Hv) as (n2 & u1 & u2).
    destruct (IH _ _ n1 n2 valid) as ((a1 & a2) & inside).
    split; [split; eauto using leb_trans|].
    constructor; [split; eauto using leb_trans|exact inside].
Qed.

(** X19: when getTensorStats reports no invalid value, the minimum and
    the maximum it returns bound every value of the tensor. *)
Theorem getTensorStats_bounds {B : Backend} (t : tensor)
    (stats : tensorStats) (values : list number) (v : number) :
  getTensorStats t = Normal stats ->
  hasInvalidValues stats = false ->
  data t = Normal values ->
  In v values ->
  (min stats <=? v) = true /\ (v <=? max stats) = true.
Proof.
  unfold getTensorStats. intros call valid read member.
  rewrite read in call. cbn [bind] in call. injection call as <-.
  destruct (statsLoop_bounds values infinity neg_infinity)
    as [_ inside]; try reflexivity; [exact valid|].
  rewrite Forall_forall in inside. exact (inside v member).
Qed.

(** X20: on the classifier path the confidence reported is the mean of
    the passive score and the probability of the class the verdict names:
    the live probability when the verdict is live, the spoof probability
    when it is not (the two probabilities being equal when the live one
    is used for a verdict that is not live). *)
Theorem confidence_class {B : Backend} (faceImageTensor : option tensor)
    (s s' : state) (m : model) (face : tensor)
    (predictionData : list number) (v : Verdict.t) (c : number) :
  modelRef s = Some m ->
  validateFace faceImageTensor = Normal face ->
  classify m face = Normal predictionData ->
  detectLiveness faceImageTensor s = (Result v, s') ->
  Verdict.passiveScore v = Some c ->
  let liveProbability := item predictionData 1 in
  let spoofProbability := item predictionData 0 in
  (Verdict.isLive v = true ->
   (spoofProbability <? liveProbability) = true
   /\ Verdict.confidence v = (liveProbability + c) / 2)
  /\ (Verdict.isLive v = false ->
      Verdict.confidence v = (spoofProbability + c) / 2
      \/ ((liveProbability =? spoofProbability) = true
          /\ Verdict.confidence v = (liveProbability + c) / 2)).
Proof.
  intros Hmodel Hvalid Hdata. unfold detectLiveness.
  rewrite Hmodel, Hvalid.
  destruct (isModelLoaded s); [|discriminate].
  cbv zeta. destruct (Passive.isSpoof _) eqn:passive.
  - intros [= <- _]. discriminate.
  - rewrite Hdata. cbn [bind]. unfold fuse. cbv zeta. rewrite passive.
    unfold isNaN.
    destruct (is_nan (item predictionData 1)) eqn:Hlive;
      [discriminate|].
    destruct (is_nan (item predictionData 0)) eqn:Hspoof;
      [discriminate|].
    cbn [orb]. intros [= <- _]. cbn. intros [= <-].
    rewrite andb_true_r.
    destruct (max_picks _ _ Hlive Hspoof) as [above below].
    split.
    + intros live. split; [exact live|]. now rewrite (above live).
    + intros notlive. destruct (below notlive) as [-> | [same ->]]; auto.
Qed.

End BoundFacts.

Section BoundsOnTheDouble.

Import JS Checks Detection Extraction.
Import Double DomDouble.
Local Open Scope float_scope.

(** [boundingBox_contains] on three landmarks. *)
Lemma boundingBox_contains_witness :
  let lm := [{| x := 0.2; y := 0.3 |}; {| x := 0.5; y := 0.9 |};
             {| x := 0.4; y := 0.1 |}] in
  (minX (boundingBox lm) <=? 0.5) = true
  /\ (0.5 <=? maxX (boundingBox lm)) = true
  /\ (minY (boundingBox lm) <=? 0.9) = true
  /\ (0.9 <=? maxY (boundingBox lm)) = true.
Proof.
  intros lm.
  apply (boundingBox_contains lm {| x := 0.5; y := 0.9 |}).
  - repeat constructor.
  - right. left. reflexivity.
Defined.

(** [getTensorStats_bounds] on a crop with a bright and a dark half. *)
Lemma getTensorStats_bounds_witness :
  exists stats,
    getTensorStats halfFace = Normal stats
    /\ (min stats <=? 1) = true /\ (1 <=? max stats) = true.
Proof.
  eexists. split; [reflexivity|].
  eapply (getTensorStats_bounds (B := backend) halfFace _ (vals halfFace));
    [reflexivity|vm_compute; reflexivity|reflexivity|].
  left. reflexivity.
Defined.

(** [confidence_class] on a verdict that is not live: the confidence is
    built from the spoof probability 0.9. *)
Lemma confidence_class_witness :
  let v := {| Verdict.isLive := false;
              Verdict.confidence := (0.9 + 2 / 3) / 2;
              Verdict.passiveScore := Some (2 / 3);
              Verdict.spoofReasons := [] |} in
  fst (detectLiveness (Some halfFace) (loaded (answering 0.9 0.1) []))
  = Result v
  /\ (Verdict.confidence v = (0.9 + 2 / 3) / 2
      \/ ((0.1 =? 0.9) = true
          /\ Verdict.confidence v = (0.1 + 2 / 3) / 2)).
Proof.
  intros v. split; [vm_compute; reflexivity|].
  apply (proj2 (confidence_class (B := backend) (Some halfFace)
                  (loaded (answering 0.9 0.1) [])
                  (setVerdict
                     (withHistory (loaded (answering 0.9 0.1) [])
                        [halfFace])
                     false ((0.9 + 2 / 3) / 2))
                  (answering 0.9 0.1) halfFace [0.9; 0.1] v (2 / 3)
                  eq_refl eq_refl eq_refl eq_refl eq_refl)).
  reflexivity.
Defined.

End BoundsOnTheDouble.

(** * Completing a session *)

Section CompletionFacts.

Import JS Checks.
Local Open Scope Z_scope.

(** Evaluates the next frame of a run, which arrives at least 500ms after
    a timer that is set or finds the timer unset. *)
Ltac advance :=
  lazymatch goal with
  | |- run ?s (?e :: ?rest) = ?r => change (run (step s e) rest = r)
  end;
  cbn [step]; unfold checkLivenessAction;
  cbn [actionStartTime currentAction blinkHistory unset initial startAt
       blinkDetected headTurnDetected smileDetected headPositionHistory];
  rewrite ?(proj2 (Z.eqb_neq _ 0)) by lia;
  rewrite ?(proj2 (Z.ltb_ge _ 500)) by lia;
  cbn [bind tryCatch].

(** X21: five frames suffice to complete a session: a first frame with a
    face, then frames at least 500ms apart, the second with any face, the
    third counted as a blink, the fourth as a head turn and the fifth as
    a smile, lead from the initial state to complete with progress 100,
    all three flags set and the dwell timer cleared. *)
Theorem sequencer_completes (t0 t1 t2 t3 t4 : Z)
    (first second blinked turned smiled : landmarks)
    (history : list number) :
  0 < t0 ->
  500 <= t1 - t0 -> 500 <= t2 - t1 -> 500 <= t3 - t2 -> 500 <= t4 - t3 ->
  detectBlink (Some blinked) [] = Normal (true, history) ->
  detectHeadTurn (Some turned) = Normal true ->
  detectSmile (Some smiled) = Normal true ->
  run initial
    [Frame t0 (Some first); Frame t1 (Some second);
     Frame t2 (Some blinked); Frame t3 (Some turned);
     Frame t4 (Some smiled)]
  = {| blinkDetected := true; headTurnDetected := true;
       smileDetected := true; currentAction := complete;
       actionProgress := 100; actionStartTime := None;
       blinkHistory := history; headPositionHistory := [] |}.
Proof.
  intros positive d1 d2 d3 d4 Hblink Hturn Hsmile.
  advance. advance.
  advance. rewrite Hblink. cbn [bind tryCatch].
  advance. rewrite Hturn. cbn [bind tryCatch].
  advance. rewrite Hsmile. reflexivity.
Qed.

(** [sequencer_completes] on five frames 500ms apart showing all three
    gestures. *)
Lemma sequencer_completes_witness :
  currentAction
    (run initial
       [Frame 1000 (Some Gestures.performing);
        Frame 1500 (Some Gestures.performing);
        Frame 2000 (Some Gestures.performing);
        Frame 2500 (Some Gestures.performing);
        Frame 3000 (Some Gestures.performing)])
  = complete.
Proof.
  rewrite (sequencer_completes 1000 1500 2000 2500 3000
             Gestures.performing Gestures.performing Gestures.performing
             Gestures.performing Gestures.performing [0.1%float]);
    try lia; reflexivity.
Defined.

End CompletionFacts.

(** * NaN in landmarks *)

Section NanFacts.

Local Open Scope float_scope.

Lemma nan_decoded a : is_nan a = true <-> Prim2SF a = S754_nan.
Proof.
  split.
  - intros undefined. destruct (Prim2SF a) eqn:decoded; try reflexivity;
      assert (defined : is_nan a = false)
        by (apply not_nan_decoded; rewrite decoded; discriminate);
      congruence.
  - intros decoded. destruct (is_nan a) eqn:defined; [reflexivity|].
    apply not_nan_decoded in defined. contradiction.
Qed.

Lemma add_nan a b :
  is_nan a = true \/ is_nan b = true -> is_nan (a + b) = true.
Proof.
  intros [Ha|Hb]; apply nan_decoded; rewrite FloatAxioms.add_spec.
  - apply nan_decoded in Ha. now rewrite Ha.
  - apply nan_decoded in Hb. rewrite Hb. now destruct (Prim2SF a).
Qed.

Lemma sub_nan a b :
  is_nan a = true \/ is_nan b = true -> is_nan (a - b) = true.
Proof.
  intros [Ha|Hb]; apply nan_decoded; rewrite FloatAxioms.sub_spec.
  - apply nan_decoded in Ha. now rewrite Ha.
  - apply nan_decoded in Hb. rewrite Hb. now destruct (Prim2SF a).
Qed.

Lemma mul_nan a b :
  is_nan a = true \/ is_nan b = true -> is_nan (a * b) = true.
Proof.
  intros [Ha|Hb]; apply nan_decoded; rewrite FloatAxioms.mul_spec.
  - apply nan_decoded in Ha. now rewrite Ha.
  - apply nan_decoded in Hb. rewrite Hb. now destruct (Prim2SF a).
Qed.

Lemma div_nan a b :
  is_nan a = true \/ is_nan b = true -> is_nan (a / b) = true.
Proof.
  intros [Ha|Hb]; apply nan_decoded; rewrite FloatAxioms.div_spec.
  - apply nan_decoded in Ha. now rewrite Ha.
  - apply nan_decoded in Hb. rewrite Hb. now destruct (Prim2SF a).
Qed.

Lemma sqrt_nan a : is_nan a = true -> is_nan (PrimFloat.sqrt a) = true.
Proof.
  intros Ha. apply nan_decoded. rewrite FloatAxioms.sqrt_spec.
  apply nan_decoded in Ha. now rewrite Ha.
Qed.

(** No comparison with NaN holds. *)
Lemma ltb_nan a b :
  is_nan a = true \/ is_nan b = true -> (a <? b) = false.
Proof.
  rewrite FloatAxioms.ltb_spec. unfold SFltb.
  intros [Ha|Hb].
  - apply nan_decoded in Ha. now rewrite Ha.
  - apply nan_decoded in Hb. rewrite Hb. now destruct (Prim2SF a).
Qed.

Lemma sum_nan (values : list float) : forall acc,
  is_nan acc = true \/ (exists v, In v values /\ is_nan v = true) ->
  is_nan (fold_left (fun a b => a + b) values acc) = true.
Proof.
  induction values as [|v rest IH]; intros acc [Hacc|(w & member & Hw)].
  - exact Hacc.
  - destruct member.
  - cbn [fold_left]. apply IH. left. apply add_nan. now left.
  - cbn [fold_left]. apply IH. destruct member as [<-|later].
    + left. apply add_nan. now right.
    + right. eauto.
Qed.

End NanFacts.

Section CorruptFacts.

Import JS Checks Gestures.
Local Open Scope float_scope.

Lemma distance_nan p q :
  corrupt p \/ corrupt q -> is_nan (distance p q) = true.
Proof.
  unfold corrupt, distance, JS.sqrt, pow2. intros broken.
  apply sqrt_nan, add_nan.
  destruct broken as [[Hx|Hy]|[Hx|Hy]];
    [left|right|left|right]; apply mul_nan; left; apply sub_nan; auto.
Qed.

Lemma historyMean_nan (history : list number) :
  (exists v, In v history /\ is_nan v = true) ->
  (historyMean history <? blinkThreshold) = false.
Proof.
  intros poisoned. apply ltb_nan. left. unfold historyMean.
  apply div_nan. left. apply sum_nan. now right.
Qed.

Lemma pushBlink_newest (history : list number) (v : number) :
  last (pushBlink history v) 0 = v /\ In v (pushBlink history v).
Proof.
  unfold pushBlink.
  destruct (Nat.ltb_spec 10 (List.length (history ++ [v]))) as [full|room].
  - destruct history as [|h rest]; [cbn in full; lia|].
    cbn [app tl]. rewrite last_last. split; [reflexivity|].
    apply in_or_app. right. now left.
  - rewrite last_last. split; [reflexivity|].
    apply in_or_app. right. now left.
Qed.

(** X22: a NaN in the blink history blocks the blink: whenever the
    history retained after a push contains a NaN, detectBlink answers
    false, so an invocation of checkLivenessAction in the blink stage
    that ends with such a history has not left the stage. *)
Theorem blink_history_poisoned (lm : option landmarks)
    (history : list number) :
  (forall detected history',
      detectBlink lm history = Normal (detected, history') ->
      (exists v, In v history' /\ is_nan v = true) ->
      detected = false)
  /\ (forall currentTime s s',
         currentAction s = blink ->
         checkLivenessAction currentTime lm s = Normal s' ->
         (exists v, In v (blinkHistory s') /\ is_nan v = true) ->
         currentAction s' = blink).
Proof.
  assert (blocked : forall h detected history',
             detectBlink lm h = Normal (detected, history') ->
             (exists v, In v history' /\ is_nan v = true) ->
             detected = false).
  { intros h detected history'. unfold detectBlink.
    destruct lm as [l|]; [|now intros [= <- _]].
    destruct (calculateEyeAspectRatio l _) as [leftEAR|]; [|discriminate].
    destruct (calculateEyeAspectRatio l _) as [rightEAR|];
      [|discriminate].
    cbn [bind]. intros [= <- <-]. apply historyMean_nan. }
  split; [apply blocked|].
  intros currentTime s s' stage. unfold checkLivenessAction.
  destruct lm as [l|]; [|now intros [= <-]].
  destruct (unset (actionStartTime s)); [now intros [= <-]|].
  destruct (_ <? 500)%Z; [now intros [= <-]|].
  rewrite stage.
  destruct (detectBlink (Some l) (blinkHistory s)) as [[detected h]|]
    eqn:call; cbn [bind]; [|discriminate].
  destruct detected; intros [= <-]; cbn; [|now intros _].
  intros poisoned. now pose proof (blocked _ _ _ call poisoned).
Qed.

(** X23: a landmark with a NaN coordinate is never taken for a gesture:
    if one of the landmarks a detector reads is corrupt, detectHeadTurn
    and detectSmile answer false, and detectBlink answers false and
    leaves a NaN as the newest entry of the history. *)
Theorem nan_landmark_rejected (lm : landmarks) :
  (forall nose leftEar rightEar,
      nth_error lm NOSE_TIP = Some nose ->
      nth_error lm LEFT_EAR = Some leftEar ->
      nth_error lm RIGHT_EAR = Some rightEar ->
      corrupt nose \/ corrupt leftEar \/ corrupt rightEar ->
      detectHeadTurn (Some lm) = Normal false)
  /\ (forall mouthLeft mouthRight mouthTop mouthBottom,
         nth_error lm MOUTH_LEFT = Some mouthLeft ->
         nth_error lm MOUTH_RIGHT = Some mouthRight ->
         nth_error lm MOUTH_TOP = Some mouthTop ->
         nth_error lm MOUTH_BOTTOM = Some mouthBottom ->
         corrupt mouthLeft \/ corrupt mouthRight
         \/ corrupt mouthTop \/ corrupt mouthBottom ->
         detectSmile (Some lm) = Normal false)
  /\ (forall history lTop lBottom lLeft lRight rTop rBottom rLeft rRight,
         nth_error lm LEFT_EYE_TOP = Some lTop ->
         nth_error lm LEFT_EYE_BOTTOM = Some lBottom ->
         nth_error lm LEFT_EYE_LEFT = Some lLeft ->
         nth_error lm LEFT_EYE_RIGHT = Some lRight ->
         nth_error lm RIGHT_EYE_TOP = Some rTop ->
         nth_error lm RIGHT_EYE_BOTTOM = Some rBottom ->
         nth_error lm RIGHT_EYE_LEFT = Some rLeft ->
         nth_error lm RIGHT_EYE_RIGHT = Some rRight ->
         corrupt lTop \/ corrupt lBottom \/ corrupt lLeft \/ corrupt lRight
         \/ corrupt rTop \/ corrupt rBottom \/ corrupt rLeft
         \/ corrupt rRight ->
         exists history' newest,
           detectBlink (Some lm) history = Normal (false, history')
           /\ last history' 0 = newest /\ is_nan newest = true).
Proof.
  split; [|split].
  - intros nose leftEar rightEar Hnose Hleft Hright broken.
    unfold detectHeadTurn, point. rewrite Hnose, Hleft, Hright.
    cbn [bind]. f_equal.
    assert (ratio : is_nan (distance nose leftEar
                            / distance nose rightEar) = true).
    { apply div_nan.
      destruct broken as [?|[?|?]];
        [left|left|right]; apply distance_nan; auto. }
    rewrite (ltb_nan _ _ (or_intror ratio)), (ltb_nan _ _ (or_introl ratio)).
    reflexivity.
  - intros mouthLeft mouthRight mouthTop mouthBottom Hl Hr Ht Hb broken.
    unfold detectSmile, point. rewrite Hl, Hr, Ht, Hb.
    cbn [bind]. f_equal. apply ltb_nan. right. apply div_nan.
    destruct broken as [?|[?|[?|?]]];
      [left|left|right|right]; apply distance_nan; auto.
  - intros history lTop lBottom lLeft lRight rTop rBottom rLeft rRight
      H1 H2 H3 H4 H5 H6 H7 H8 broken.
    unfold detectBlink, calculateEyeAspectRatio, point.
    rewrite H1, H2, H3, H4, H5, H6, H7, H8. cbn [bind].
    set (leftEAR := (distance lTop lBottom + distance lTop lBottom)
                    / (2 * distance lLeft lRight)).
    set (rightEAR := (distance rTop rBottom + distance rTop rBottom)
                     / (2 * distance rLeft rRight)).
    assert (average : is_nan ((leftEAR + rightEAR) / 2) = true).
    { apply div_nan. left. apply add_nan.
      destruct broken as [?|[?|[?|[?|[?|[?|[?|?]]]]]]];
        [left|left|left|left|right|right|right|right];
        apply div_nan;
        [left|left|right|right|left|left|right|right];
        try (apply add_nan; left); try (apply mul_nan; right);
        apply distance_nan; auto. }
    destruct (pushBlink_newest history ((leftEAR + rightEAR) / 2))
      as [newest member].
    exists (pushBlink history ((leftEAR + rightEAR) / 2)),
      ((leftEAR + rightEAR) / 2).
    split; [|split; [exact newest|exact average]].
    f_equal. f_equal. apply historyMean_nan.
    exists ((leftEAR + rightEAR) / 2). split; assumption.
Qed.

(** [nan_landmark_rejected] on a frame whose left eye lost a coordinate:
    no blink, and a NaN as the newest entry of the history. *)
Lemma nan_landmark_rejected_witness :
  exists history' newest,
    detectBlink (Some corrupted) [] = Normal (false, history')
    /\ last history' 0 = newest /\ is_nan newest = true.
Proof.
  apply (proj2 (proj2 (nan_landmark_rejected corrupted)) []
           {| x := 0; y := nan |} {| x := 0; y := 0 |}
           {| x := 0; y := 0 |} {| x := 1; y := 0 |}
           {| x := 0; y := 0.1 |} {| x := 0; y := 0 |}
           {| x := 0; y := 0 |} {| x := 1; y := 0 |});
    try reflexivity.
  left. right. reflexivity.
Defined.

(** [blink_history_poisoned] on closed eyes pushed onto a history that
    holds a NaN. *)
Lemma blink_history_poisoned_witness :
  detectBlink (Some performing) [nan] = Normal (false, [nan; 0.1]).
Proof.
  assert (call : detectBlink (Some performing) [nan]
                 = Normal ((historyMean [nan; 0.1] <? blinkThreshold),
                           [nan; 0.1]))
    by reflexivity.
  rewrite call.
  rewrite (proj1 (blink_history_poisoned (Some performing) [nan])
             _ _ call); [reflexivity|].
  exists nan. split; [now left|reflexivity].
Defined.

End CorruptFacts.

(** * What a softmax unit answers *)

Section SoftmaxFacts.

Local Open Scope float_scope.


End SoftmaxFacts.

(** * The passive analyses when an operation throws, and the validation
      of the prediction *)

Section ThrowFacts.

Import JS Detection.
Context {B : Backend}.
Local Open Scope float_scope.

(** Closes a goal whose premise says that a score of 0 is 1. *)
Ltac impossible := intros absurd; now apply one_is_not_zero in absurd.

Lemma frequency_unavailable (t : tensor) :
  (exists message, tf_spectral_fft2d t = Throw message) ->
  analyzeFrequencyDomain (Some t) = 0.
Proof.
  intros [message thrown]. unfold analyzeFrequencyDomain.
  rewrite thrown. reflexivity.
Qed.

(** The score when no operation of the frequency analysis throws. *)
Lemma frequency_attempt (faceTensor : tensor)
    fft magnitude high highFreqEnergy totalEnergy artifactRatio ratio :
  tf_spectral_fft2d faceTensor = Normal fft ->
  tf_abs fft = Normal magnitude ->
  tf_slice magnitude [0; 112; 0]%Z [-1; 112; -1]%Z = Normal high ->
  tf_sum high = Normal highFreqEnergy ->
  tf_sum magnitude = Normal totalEnergy ->
  div highFreqEnergy totalEnergy = Normal artifactRatio ->
  data artifactRatio = Normal ratio ->
  analyzeFrequencyDomain (Some faceTensor)
  = if item ratio 0 <? 0.3 then 1 else 0.
Proof.
  intros Hfft Habs Hslice Hhigh Htotal Hdiv Hdata.
  unfold analyzeFrequencyDomain.
  rewrite Hfft; cbn [bind]. rewrite Habs; cbn [bind].
  rewrite Hslice; cbn [bind]. rewrite Hhigh; cbn [bind].
  rewrite Htotal; cbn [bind]. rewrite Hdiv; cbn [bind].
  rewrite Hdata. reflexivity.
Qed.

(** A score of 1 of the frequency analysis comes from a quotient below
    0.3 that every operation has succeeded to compute. *)
Lemma frequency_passes (faceTensor : tensor) :
  analyzeFrequencyDomain (Some faceTensor) = 1 ->
  exists fft magnitude high highFreqEnergy totalEnergy artifactRatio ratio,
    tf_spectral_fft2d faceTensor = Normal fft
    /\ tf_abs fft = Normal magnitude
    /\ tf_slice magnitude [0; 112; 0]%Z [-1; 112; -1]%Z = Normal high
    /\ tf_sum high = Normal highFreqEnergy
    /\ tf_sum magnitude = Normal totalEnergy
    /\ div highFreqEnergy totalEnergy = Normal artifactRatio
    /\ data artifactRatio = Normal ratio
    /\ (item ratio 0 <? 0.3) = true.
Proof.
  unfold analyzeFrequencyDomain.
  destruct (tf_spectral_fft2d faceTensor) as [fft|] eqn:Hfft;
    cbn [bind tryCatch]; [|impossible].
  destruct (tf_abs fft) as [magnitude|] eqn:Habs;
    cbn [bind tryCatch]; [|impossible].
  destruct (tf_slice magnitude _ _) as [high|] eqn:Hslice;
    cbn [bind tryCatch]; [|impossible].
  destruct (tf_sum high) as [highFreqEnergy|] eqn:Hhigh;
    cbn [bind tryCatch]; [|impossible].
  destruct (tf_sum magnitude) as [totalEnergy|] eqn:Htotal;
    cbn [bind tryCatch]; [|impossible].
  destruct (div highFreqEnergy totalEnergy) as [artifactRatio|] eqn:Hdiv;
    cbn [bind tryCatch]; [|impossible].
  destruct (data artifactRatio) as [ratio|] eqn:Hdata;
    cbn [bind tryCatch]; [|impossible].
  destruct (item ratio 0 <? 0.3) eqn:low; [|impossible].
  intros _. exists fft, magnitude, high, highFreqEnergy, totalEnergy,
    artifactRatio, ratio. repeat split; assumption || reflexivity.
Qed.

Lemma texture_rejected (t : tensor) :
  (exists message,
      tf_tensor4d [[[[0; 1; 0]; [1; -4; 1]; [0; 1; 0]]]] [3; 3; 1; 1]%nat
      = Throw message) ->
  analyzeTexture (Some t) = 0.
Proof.
  intros [message thrown]. unfold analyzeTexture.
  destruct (tf_mean_axis t _ _) as [gray|]; cbn [bind tryCatch];
    [|reflexivity].
  destruct (expandDims gray _) as [expanded|]; cbn [bind tryCatch];
    [|reflexivity].
  rewrite thrown. reflexivity.
Qed.

(** X13: analyzeTexture averages the channels, convolves with the 3 by 3
    Laplacian kernel and reads back the variance of the response.  When
    no operation throws it returns 1 if the value read back exceeds 0.01
    and 0 otherwise.  When an operation throws, whichever of the six it
    is (the channel mean, the added dimension, the construction of the
    kernel, the convolution, the variance, its read-back), it returns 0.
    So on a backend that rejects the kernel, as TensorFlow.js does
    because the nested array has shape 1,1,3,3 under the declared shape
    3,3,1,1, it returns 0 for every crop. *)
Theorem analyzeTexture_degrades (faceTensor : tensor) :
  (forall gray expanded kernel laplacian variance textureScore,
      tf_mean_axis faceTensor (-1) true = Normal gray ->
      expandDims gray (-1) = Normal expanded ->
      tf_tensor4d [[[[0; 1; 0]; [1; -4; 1]; [0; 1; 0]]]] [3; 3; 1; 1]%nat
      = Normal kernel ->
      tf_conv2d expanded kernel [1; 1]%nat "same" = Normal laplacian ->
      tf_moments_variance laplacian = Normal variance ->
      data variance = Normal textureScore ->
      analyzeTexture (Some faceTensor)
      = if 0.01 <? item textureScore 0 then 1 else 0)
  /\ (forall message,
         tf_mean_axis faceTensor (-1) true = Throw message ->
         analyzeTexture (Some faceTensor) = 0)
  /\ (forall gray message,
         tf_mean_axis faceTensor (-1) true = Normal gray ->
         expandDims gray (-1) = Throw message ->
         analyzeTexture (Some faceTensor) = 0)
  /\ (forall message,
         tf_tensor4d [[[[0; 1; 0]; [1; -4; 1]; [0; 1; 0]]]] [3; 3; 1; 1]%nat
         = Throw message ->
         forall anyTensor, analyzeTexture (Some anyTensor) = 0)
  /\ (forall gray expanded kernel message,
         tf_mean_axis faceTensor (-1) true = Normal gray ->
         expandDims gray (-1) = Normal expanded ->
         tf_tensor4d [[[[0; 1; 0]; [1; -4; 1]; [0; 1; 0]]]] [3; 3; 1; 1]%nat
         = Normal kernel ->
         tf_conv2d expanded kernel [1; 1]%nat "same" = Throw message ->
         analyzeTexture (Some faceTensor) = 0)
  /\ (forall gray expanded kernel laplacian message,
         tf_mean_axis faceTensor (-1) true = Normal gray ->
         expandDims gray (-1) = Normal expanded ->
         tf_tensor4d [[[[0; 1; 0]; [1; -4; 1]; [0; 1; 0]]]] [3; 3; 1; 1]%nat
         = Normal kernel ->
         tf_conv2d expanded kernel [1; 1]%nat "same" = Normal laplacian ->
         tf_moments_variance laplacian = Throw message ->
         analyzeTexture (Some faceTensor) = 0)
  /\ (forall gray expanded kernel laplacian variance message,
         tf_mean_axis faceTensor (-1) true = Normal gray ->
         expandDims gray (-1) = Normal expanded ->
         tf_tensor4d [[[[0; 1; 0]; [1; -4; 1]; [0; 1; 0]]]] [3; 3; 1; 1]%nat
         = Normal kernel ->
         tf_conv2d expanded kernel [1; 1]%nat "same" = Normal laplacian ->
         tf_moments_variance laplacian = Normal variance ->
         data variance = Throw message ->
         analyzeTexture (Some faceTensor) = 0).
Proof.
  unfold analyzeTexture. repeat split.
  - intros gray expanded kernel laplacian variance textureScore
      H1 H2 H3 H4 H5 H6.
    rewrite H1; cbn [bind]. rewrite H2; cbn [bind].
    rewrite H3; cbn [bind]. rewrite H4; cbn [bind].
    rewrite H5; cbn [bind]. now rewrite H6.
  - intros message H1. now rewrite H1.
  - intros gray message H1 H2. now rewrite H1; cbn [bind]; rewrite H2.
  - intros message thrown anyTensor.
    apply texture_rejected. eauto.
  - intros gray expanded kernel message H1 H2 H3 H4.
    rewrite H1; cbn [bind]. rewrite H2; cbn [bind].
    rewrite H3; cbn [bind]. now rewrite H4.
  - intros gray expanded kernel laplacian message H1 H2 H3 H4 H5.
    rewrite H1; cbn [bind]. rewrite H2; cbn [bind].
    rewrite H3; cbn [bind]. rewrite H4; cbn [bind]. now rewrite H5.
  - intros gray expanded kernel laplacian variance message
      H1 H2 H3 H4 H5 H6.
    rewrite H1; cbn [bind]. rewrite H2; cbn [bind].
    rewrite H3; cbn [bind]. rewrite H4; cbn [bind].
    rewrite H5; cbn [bind]. now rewrite H6.
Qed.

(** X24: on a backend that, like TensorFlow.js, rejects the kernel of
    analyzeTexture and has no fft2d, the passive analysis calls every
    crop a spoof, with aggregate 0 or 1/3 and the reasons "Low texture
    detail" and "Digital artifacts detected"; detectLiveness then never
    gets to the classifier: with a loaded model and a valid face it
    returns the spoof verdict, not live, with confidence 1 or 1 - 1/3,
    and it returns null only when the validation of the face fails. *)
Theorem passive_always_spoof :
  (exists message,
      tf_tensor4d [[[[0; 1; 0]; [1; -4; 1]; [0; 1; 0]]]] [3; 3; 1; 1]%nat
      = Throw message) ->
  (forall t, exists message, tf_spectral_fft2d t = Throw message) ->
  (forall t history,
      let r := detectSpoofing (Some t) history in
      Passive.isSpoof r = true
      /\ (Passive.confidence r = 0 \/ Passive.confidence r = 1 / 3)
      /\ In "Low texture detail"%string (Passive.reasons r)
      /\ In "Digital artifacts detected"%string (Passive.reasons r))
  /\ (forall faceImageTensor s,
         match fst (detectLiveness faceImageTensor s) with
         | Result v =>
             Verdict.isLive v = false
             /\ Verdict.passiveScore v = None
             /\ (Verdict.confidence v = 1
                 \/ Verdict.confidence v = 1 - 1 / 3)
             /\ In "Low texture detail"%string (Verdict.spoofReasons v)
             /\ In "Digital artifacts detected"%string
                  (Verdict.spoofReasons v)
         | Null => exists message, validateFace faceImageTensor = Throw message
         | Undefined => modelRef s = None \/ isModelLoaded s = false
         end).
Proof.
  intros rejected missing.
  assert (passive : forall t history,
             let r := detectSpoofing (Some t) history in
             Passive.isSpoof r = true
             /\ (Passive.confidence r = 0 \/ Passive.confidence r = 1 / 3)
             /\ In "Low texture detail"%string (Passive.reasons r)
             /\ In "Digital artifacts detected"%string (Passive.reasons r)).
  { intros t history. cbv zeta. unfold detectSpoofing.
    rewrite (texture_rejected t rejected),
      (frequency_unavailable t (missing t)).
    destruct (analyzeMotion_binary (Some t) history) as [-> | ->];
      vm_compute; auto 10. }
  split; [exact passive|].
  intros faceImageTensor s. unfold detectLiveness.
  destruct (modelRef s) as [m|]; [|cbn; auto].
  destruct (isModelLoaded s); [|cbn; auto].
  destruct (validateFace faceImageTensor) as [face|message];
    [|cbn; eauto].
  cbv zeta. set (history := removelast _).
  pose proof (passive face history) as spoofed. cbv zeta in spoofed.
  destruct (detectSpoofing (Some face) history) as [spoof c reasons].
  cbn [Passive.isSpoof Passive.confidence Passive.reasons] in *.
  destruct spoofed as (-> & score & texture & frequency).
  cbn. repeat split; auto.
  destruct score as [-> | ->]; auto.
Qed.



End ThrowFacts.

(** * The library backend on concrete inputs *)

Section OnTheLibrary.

Import JS Detection Double.
Local Open Scope float_scope.

(** C8: analyzeFrequencyDomain is written to transform the crop with
    fft2d, take the magnitude, sum the slice that starts at column 112
    and is 112 wide, divide by the sum of the whole magnitude and return
    1 when the quotient read back is below 0.3 and 0 otherwise; a score
    of 1 needs every operation to succeed, and a throw of the transform
    gives 0.  TensorFlow.js has no fft2d, so the first operation throws
    on every crop: no ratio is computed and the score is 0 whatever the
    crop, also for the uniform crop, whose spectrum has no energy in its
    outer half. *)
Theorem analyzeFrequencyDomain_always_zero :
  (forall (B : Backend) (faceTensor : Detection.tensor)
          fft magnitude high highFreqEnergy totalEnergy artifactRatio ratio,
      tf_spectral_fft2d faceTensor = Normal fft ->
      tf_abs fft = Normal magnitude ->
      tf_slice magnitude [0; 112; 0]%Z [-1; 112; -1]%Z = Normal high ->
      tf_sum high = Normal highFreqEnergy ->
      tf_sum magnitude = Normal totalEnergy ->
      div highFreqEnergy totalEnergy = Normal artifactRatio ->
      data artifactRatio = Normal ratio ->
      analyzeFrequencyDomain (Some faceTensor)
      = if item ratio 0 <? 0.3 then 1 else 0)
  /\ (forall (B : Backend) (faceTensor : Detection.tensor),
         analyzeFrequencyDomain (Some faceTensor) = 1 ->
         exists fft magnitude high highFreqEnergy totalEnergy
                artifactRatio ratio,
           tf_spectral_fft2d faceTensor = Normal fft
           /\ tf_abs fft = Normal magnitude
           /\ tf_slice magnitude [0; 112; 0]%Z [-1; 112; -1]%Z
              = Normal high
           /\ tf_sum high = Normal highFreqEnergy
           /\ tf_sum magnitude = Normal totalEnergy
           /\ div highFreqEnergy totalEnergy = Normal artifactRatio
           /\ data artifactRatio = Normal ratio
           /\ (item ratio 0 <? 0.3) = true)
  /\ (forall (B : Backend) (faceTensor : Detection.tensor),
         (exists message, tf_spectral_fft2d faceTensor = Throw message) ->
         analyzeFrequencyDomain (Some faceTensor) = 0)
  /\ (forall faceTensor : Double.tensor,
         analyzeFrequencyDomain (B := Library.tfjs) (Some faceTensor) = 0)
  /\ analyzeFrequencyDomain (B := Library.tfjs) (Some Library.uniform) = 0.
Proof.
  split; [|split; [|split; [|split]]].
  - intros B faceTensor. apply frequency_attempt.
  - intros B faceTensor. apply frequency_passes.
  - intros B faceTensor. apply frequency_unavailable.
  - intros faceTensor. apply (frequency_unavailable (B := Library.tfjs)).
    eexists. reflexivity.
  - apply (frequency_unavailable (B := Library.tfjs)).
    eexists. reflexivity.
Qed.

(** [analyzeFrequencyDomain_always_zero] on the library backend and the
    uniform crop: the transform throws and the score is 0. *)
Lemma analyzeFrequencyDomain_always_zero_witness :
  analyzeFrequencyDomain (B := Library.tfjs) (Some Library.uniform) = 0.
Proof.
  apply (proj1 (proj2 (proj2 analyzeFrequencyDomain_always_zero))
           Library.tfjs Library.uniform).
  exists "TypeError: tf.spectral.fft2d is not a function"%string.
  reflexivity.
Defined.

(** [analyzeTexture_degrades] on the library backend, which rejects the
    kernel. *)
Lemma analyzeTexture_degrades_witness :
  analyzeTexture (B := Library.tfjs) (Some Library.uniform) = 0.
Proof.
  apply (proj1 (proj2 (proj2 (proj2
           (analyzeTexture_degrades (B := Library.tfjs) Library.uniform))))
           "Error creating a new Tensor: inferred shape mismatch"%string).
  reflexivity.
Defined.

(** [passive_always_spoof] on the library backend: a crop that passes
    two analyses on the double is a spoof here, and the classifier that
    would answer live 0.85 is not asked. *)
Lemma passive_always_spoof_witness :
  fst (detectLiveness (B := Library.tfjs) (Some halfFace)
         (Library.loaded (Library.answering 0.1 0.85) []))
  = Result {| Verdict.isLive := false;
              Verdict.confidence := 1;
              Verdict.passiveScore := None;
              Verdict.spoofReasons :=
                ["Low texture detail"%string;
                 "Insufficient motion"%string;
                 "Digital artifacts detected"%string] |}
  /\ match
       fst (detectLiveness (B := Library.tfjs) (Some halfFace)
              (Library.loaded (Library.answering 0.1 0.85) []))
     with
     | Result v =>
         Verdict.isLive v = false
         /\ Verdict.passiveScore v = None
         /\ (Verdict.confidence v = 1 \/ Verdict.confidence v = 1 - 1 / 3)
         /\ In "Low texture detail"%string (Verdict.spoofReasons v)
         /\ In "Digital artifacts detected"%string (Verdict.spoofReasons v)
     | Null =>
         exists message,
           validateFace (B := Library.tfjs) (Some halfFace) = Throw message
     | Undefined => False
     end.
Proof.
  split; [vm_compute; reflexivity|].
  exact (proj2 (passive_always_spoof (B := Library.tfjs)
                  (ex_intro _ _ eq_refl)
                  (fun t => ex_intro _ _ eq_refl))
           (Some halfFace)
           (Library.loaded (Library.answering 0.1 0.85) [])).
Defined.


End OnTheLibrary.
